(** * Order-taking backend (app.py): a shallow embedding and its properties

    The Flask handlers of [app.py] are modelled as functions from the
    request and the database to an HTTP outcome and a new database.  Python
    values are the values that [json] produces; what CPython, SQLite and the
    json module compute (float arithmetic, the Unicode tables behind
    [str.isdigit] and [str.strip], [json.dumps]/[json.loads], [str()]) is
    taken as an interface, [PyFloat] and [PyRuntime], with the few laws the
    properties rely on. *)

From Stdlib Require Import ZArith String Ascii.
From stdpp Require Import base decidable option list numbers sorting.

Local Open Scope Z_scope.

(** ** Python strings: sequences of Unicode code points *)

Definition pystr := list Z.

(** Source literals are written as in [app.py]; a Rocq string literal is a
    sequence of UTF-8 bytes, which [utf8_decode] turns into code points. *)
Fixpoint utf8_decode (bs : list Z) : pystr :=
  match bs with
  | [] => []
  | b0 :: r =>
      if b0 <? 128 then b0 :: utf8_decode r
      else if b0 <? 224 then
        match r with
        | b1 :: r1 =>
            Z.lor (Z.shiftl (Z.land b0 31) 6) (Z.land b1 63) :: utf8_decode r1
        | _ => []
        end
      else if b0 <? 240 then
        match r with
        | b1 :: b2 :: r2 =>
            Z.lor (Z.shiftl (Z.land b0 15) 12)
              (Z.lor (Z.shiftl (Z.land b1 63) 6) (Z.land b2 63))
            :: utf8_decode r2
        | _ => []
        end
      else
        match r with
        | b1 :: b2 :: b3 :: r3 =>
            Z.lor (Z.shiftl (Z.land b0 7) 18)
              (Z.lor (Z.shiftl (Z.land b1 63) 12)
                 (Z.lor (Z.shiftl (Z.land b2 63) 6) (Z.land b3 63)))
            :: utf8_decode r3
        | _ => []
        end
  end.

Definition bytes_of (s : string) : list Z :=
  (fun a => Z.of_N (N_of_ascii a)) <$> list_ascii_of_string s.

Definition py (s : string) : pystr := utf8_decode (bytes_of s).

Definition str_eqb (s t : pystr) : bool := bool_decide (s = t).

(** [sub in s] on two strings. *)
Fixpoint str_startswith (p s : pystr) : bool :=
  match p, s with
  | [], _ => true
  | _ :: _, [] => false
  | a :: p', b :: s' => (a =? b) && str_startswith p' s'
  end.

Fixpoint str_contains (sub s : pystr) : bool :=
  str_startswith sub s ||
  match s with
  | [] => false
  | _ :: s' => str_contains sub s'
  end.

(** [s.split(sep)[0]] for a non-empty [sep]: what precedes the first
    occurrence of [sep], the whole of [s] when there is none. *)
Fixpoint str_split_first (sep s : pystr) : pystr :=
  match s with
  | [] => []
  | c :: s' => if str_startswith sep s then [] else c :: str_split_first sep s'
  end.

(** [sep.join(parts)]. *)
Fixpoint str_join (sep : pystr) (parts : list pystr) : pystr :=
  match parts with
  | [] => []
  | [p] => p
  | p :: rest => p ++ sep ++ str_join sep rest
  end.

(** [str(n)] for an int. *)
Definition digit_char (d : Z) : Z := 48 + d.

Fixpoint dec_digits (fuel : nat) (n : Z) (acc : pystr) : pystr :=
  match fuel with
  | O => acc
  | S fuel' =>
      if n <? 10 then digit_char n :: acc
      else dec_digits fuel' (n / 10) (digit_char (n mod 10) :: acc)
  end.

Definition int_str (z : Z) : pystr :=
  if z <? 0 then 45 :: dec_digits (S (Z.to_nat (Z.log2 (- z)))) (- z) []
  else dec_digits (S (Z.to_nat (Z.log2 z))) z [].

(** ** Python values, as [request.get_json()] and [json.loads] build them *)

(** Floats are CPython's IEEE doubles; their arithmetic is an interface.
    [float_of_int] is the implicit int-to-float conversion of mixed
    arithmetic, which raises [OverflowError] on ints out of range. *)
Class PyFloat := {
  float : Type;
  float_add : float → float → float;
  float_mul : float → float → float;
  float_of_int : Z → option float;
  float_is_zero : float → bool;
}.

Section values.
Context {fl : PyFloat}.

Local Unset Elimination Schemes.
Inductive json : Type :=
  | JNull
  | JBool (b : bool)
  | JInt (z : Z)
  | JFloat (f : float)
  | JStr (s : pystr)
  | JArr (l : list json)
  | JObj (kvs : list (pystr * json)).
Local Set Elimination Schemes.

(** Numbers ([bool] is a subclass of [int]). *)
Inductive num : Type :=
  | NInt (z : Z)
  | NFloat (f : float).

Definition as_num (v : json) : option num :=
  match v with
  | JInt z => Some (NInt z)
  | JBool b => Some (NInt (if b then 1 else 0))
  | JFloat f => Some (NFloat f)
  | _ => None
  end.

Definition to_float (n : num) : option float :=
  match n with
  | NInt z => float_of_int z
  | NFloat f => Some f
  end.

Definition num_mul (a b : num) : option num :=
  match a, b with
  | NInt x, NInt y => Some (NInt (x * y))
  | _, _ => x ← to_float a; y ← to_float b; Some (NFloat (float_mul x y))
  end.

Definition num_add (a b : num) : option num :=
  match a, b with
  | NInt x, NInt y => Some (NInt (x + y))
  | _, _ => x ← to_float a; y ← to_float b; Some (NFloat (float_add x y))
  end.

(** [None] stands for a raised exception throughout. *)

(** [a * b] followed by [total += _] on a numeric total: a product of two
    numbers is a number; every other product either raises at once or is a
    str or list, which [+=] then rejects with [TypeError]. *)
Definition py_mul_num (a b : json) : option num :=
  x ← as_num a; y ← as_num b; num_mul x y.

(** Truth value of a Python object, as [if v:] tests it. *)
Definition py_truthy (v : json) : bool :=
  match v with
  | JNull => false
  | JBool b => b
  | JInt z => negb (z =? 0)
  | JFloat f => negb (float_is_zero f)
  | JStr s => negb (bool_decide (s = []))
  | JArr l => negb (bool_decide (length l = 0%nat))
  | JObj kvs => negb (bool_decide (length kvs = 0%nat))
  end.

(** [v == s] for a str [s]. *)
Definition py_eq_str (v : json) (s : pystr) : bool :=
  match v with
  | JStr t => str_eqb t s
  | _ => false
  end.

Fixpoint dict_lookup (k : pystr) (kvs : list (pystr * json)) : option json :=
  match kvs with
  | [] => None
  | (k', v) :: rest => if str_eqb k' k then Some v else dict_lookup k rest
  end.

(** [k in v]: key membership on a dict, element membership on a list,
    substring on a str, [TypeError] on None, bool, int and float. *)
Definition py_contains (k : pystr) (v : json) : option bool :=
  match v with
  | JObj kvs => Some (bool_decide (is_Some (dict_lookup k kvs)))
  | JArr l => Some (existsb (λ x, py_eq_str x k) l)
  | JStr s => Some (str_contains k s)
  | _ => None
  end.

(** [v[k]] for a str [k]: only a dict can be indexed by a str. *)
Definition py_getitem (v : json) (k : pystr) : option json :=
  match v with
  | JObj kvs => dict_lookup k kvs
  | _ => None
  end.

(** [v.get(k, default)]: only a dict has [.get]. *)
Definition py_get (v : json) (k : pystr) (dflt : json) : option json :=
  match v with
  | JObj kvs => Some (default dflt (dict_lookup k kvs))
  | _ => None
  end.

(** [for x in v]: the elements of a list, the keys of a dict, the
    characters of a str; the other values are not iterable. *)
Definition py_iter (v : json) : option (list json) :=
  match v with
  | JArr l => Some l
  | JObj kvs => Some ((λ kv, JStr kv.1) <$> kvs)
  | JStr s => Some ((λ c, JStr [c]) <$> s)
  | _ => None
  end.
End values.

(** ** What the Python runtime and the SQLite driver provide *)

Class PyRuntime {fl : PyFloat} := {
  (** the Unicode properties behind [str.isdigit] and [str.strip] *)
  char_isdigit : Z → bool;
  char_isspace : Z → bool;
  (** [json.dumps], and [json.loads] with [None] for a raised error *)
  json_dumps : json → pystr;
  json_loads : pystr → option json;
  (** [str(v)], which an f-string applies to each interpolated value *)
  py_str : json → pystr;
  (** the text a VARCHAR column keeps for a bound Python value other than
      None; [None] when the driver refuses to bind the value *)
  sql_text : json → option pystr;
  (** the value read back from a Float column in which a number was
      stored: the nearest double.  Amounts are kept by value, and a double
      whose value is the integer [z] is written [NInt z] (50.0 is 50).  A
      number that the column cannot take makes the commit fail, which
      [commit_fails] stands for. *)
  float_column : num → num;
  (** [datetime.isoformat()] and [strftime("%Y-%m-%d %H:%M:%S")] *)
  isoformat : Z → pystr;
  strftime_seconds : Z → pystr;
  char_isdigit_ascii c :
    0 ≤ c < 128 → char_isdigit c = (48 <=? c) && (c <=? 57);
  char_isspace_ascii c :
    0 ≤ c < 128 →
    char_isspace c = ((9 <=? c) && (c <=? 13)) || ((28 <=? c) && (c <=? 32));
  py_str_str s : py_str (JStr s) = s;
  py_str_int z : py_str (JInt z) = int_str z;
  sql_text_str s : sql_text (JStr s) = Some s;
  (** integers up to 2^53 in size are doubles *)
  float_column_exact z :
    - 2 ^ 53 ≤ z ≤ 2 ^ 53 → float_column (NInt z) = NInt z;
}.

(** ** The two tables *)

Module ContactInfo.
Record t := mk {
  id : Z;
  contact_name : pystr;
  contact_phone : pystr;
  delivery_address : option pystr;
  pickup_type : pystr;
}.
End ContactInfo.

Module Order.
(** [final_amount] is the value of the double that the Float column holds
    and [created_at] the instant of insertion. *)
Record t {fl : PyFloat} := mk {
  id : Z;
  order_id : Z;
  status : pystr;
  final_amount : num;
  items_json : pystr;
  created_at : Z;
  contact_id : Z;
}.
Arguments mk {fl} id order_id status final_amount items_json created_at
  contact_id.
End Order.

(** Rows are kept in insertion order. *)
Record database {fl : PyFloat} := Database {
  contacts : list ContactInfo.t;
  orders : list Order.t;
}.
Arguments Database {fl} contacts orders.

(** What a handler cannot decide by itself: the clock, and whether the
    storage engine fails at the flush of line 123 or inside the handler's
    [try] block (with the text of the exception it then raises). *)
Record session := Session {
  now : Z;
  flush_fails : bool;
  commit_fails : bool;
  error_text : pystr;
}.

(** ** HTTP outcomes *)

Inductive outcome (A : Type) : Type :=
  | Reply (status : Z) (body : A)          (* [jsonify(body), status] *)
  | Message (status : Z) (message : pystr) (* [jsonify({"message": ..}), status] *)
  | BadRequest                             (* raised by [get_json]: 400 *)
  | Unhandled.                             (* any other exception: 500 *)
Arguments Reply {A} status body.
Arguments Message {A} status message.
Arguments BadRequest {A}.
Arguments Unhandled {A}.

Definition status_code {A} (r : outcome A) : Z :=
  match r with
  | Reply st _ => st
  | Message st _ => st
  | BadRequest => 400
  | Unhandled => 500
  end.

(** The spec's error taxonomy. *)
Definition InvalidRequest {A} (r : outcome A) : Prop := status_code r = 400.
Definition NotFound {A} (r : outcome A) : Prop := status_code r = 404.

(** The body of a POST: not JSON by its content type, JSON by its content
    type but not parseable, or parsed. *)
Inductive request_body {fl : PyFloat} : Type :=
  | NotJson
  | Malformed
  | Json (data : json).

Section handlers.
Context {fl : PyFloat} {rt : PyRuntime}.

(** *** Storage primitives *)

(** The order of [key.desc()]: a row comes before the rows whose key is
    not larger. *)
Definition key_ge {A} (key : A → Z) : relation A := λ a b, key b ≤ key a.

#[global] Instance key_ge_dec {A} (key : A → Z) : RelDecision (key_ge key) :=
  λ a b, decide (key b ≤ key a).

(** [query.order_by(key.desc())].  SQL leaves the order of rows with equal
    keys open; the properties below use only that the result is sorted and
    a permutation of the rows. *)
Definition order_by_desc {A} (key : A → Z) (rows : list A) : list A :=
  merge_sort (key_ge key) rows.

(** [.first()] *)
Definition first {A} (rows : list A) : option A := head rows.

(** The rowid SQLite gives to a new row of an INTEGER PRIMARY KEY table:
    one more than the largest in use, 1 in an empty table.  (Once the
    largest is 2^63 - 1 SQLite draws an unused rowid at random instead;
    the properties that depend on the new rowid say so.) *)
Definition next_rowid (ids : list Z) : Z :=
  match ids with
  | [] => 1
  | i :: rest => foldr Z.max i rest + 1
  end.

(** Binding a Python value to a VARCHAR column. *)
Definition bind_required (v : json) : option pystr :=
  match v with
  | JNull => None
  | _ => sql_text v
  end.

Definition bind_nullable (v : json) : option (option pystr) :=
  match v with
  | JNull => Some None
  | _ => Some <$> sql_text v
  end.

(** [db.session.add(ContactInfo(..)); db.session.flush()]: the new row,
    with its id, or an exception. *)
Definition flush_contact (db : database) (env : session)
    (contact_name contact_phone delivery_address pickup_type : json)
    : option ContactInfo.t :=
  if flush_fails env then None
  else
    name ← bind_required contact_name;
    phone ← bind_required contact_phone;
    address ← bind_nullable delivery_address;
    pickup ← bind_required pickup_type;
    Some (ContactInfo.mk (next_rowid (ContactInfo.id <$> contacts db))
            name phone address pickup).

(** The UNIQUE constraint on [order_id]. *)
Definition order_id_free (db : database) (n : Z) : bool :=
  forallb (λ o, negb (Order.order_id o =? n)) (orders db).

(** [order.contact] *)
Definition contact_of (db : database) (o : Order.t) : option ContactInfo.t :=
  head (filter (λ c, ContactInfo.id c = Order.contact_id o) (contacts db)).

(** *** Strings *)

Fixpoint str_lstrip (s : pystr) : pystr :=
  match s with
  | [] => []
  | c :: s' => if char_isspace c then str_lstrip s' else s
  end.

Definition str_strip (s : pystr) : pystr :=
  reverse (str_lstrip (reverse (str_lstrip s))).

Definition str_isdigit (s : pystr) : bool :=
  negb (bool_decide (s = [])) && forallb char_isdigit s.

(** *** POST /api/order *)

Record receipt := Receipt {
  receipt_message : pystr;
  receipt_order_id : Z;
  receipt_final_amount : num;
  receipt_estimated_pickup_time : pystr;
}.

(** The loop of lines 89-91, from the running total. *)
Fixpoint sum_cart (total_amount : num) (items : list json) : option num :=
  match items with
  | [] => Some total_amount
  | item :: rest =>
      price ← py_get item (py "price") (JInt 0);
      quantity ← py_get item (py "quantity") (JInt 0);
      line ← py_mul_num price quantity;
      total_amount' ← num_add total_amount line;
      sum_cart total_amount' rest
  end.

(** Lines 88-95. *)
Definition compute_final_amount (data : json) : option num :=
  cart ← py_getitem data (py "cartItems");
  items ← py_iter cart;
  total_amount ← sum_cart (NInt 0) items;
  pickup ← py_get data (py "pickupType") JNull;
  let DELIVERY_FEE := if py_eq_str pickup (py "delivery") then 50 else 0 in
  num_add total_amount (NInt DELIVERY_FEE).

(** Lines 98-101. *)
Definition new_order_id (db : database) : Z :=
  match first (order_by_desc Order.order_id (orders db)) with
  | Some last_order => Order.order_id last_order + 1
  | None => 1001
  end.

(** Lines 110-113. *)
Definition normalize_address (delivery_address : json) : option json :=
  stripped ←
    (if py_truthy delivery_address then
       match delivery_address with
       | JStr s => Some (JStr (str_strip s))
       | _ => None
       end
     else Some delivery_address);
  Some (if py_eq_str stripped [] then JNull else stripped).

(** The handler after [data = request.get_json()]; [None] is an exception
    that escapes it.  The reply of lines 145-150 reads [new_db_order] after
    the commit, that is, the row: its amount is the double the column
    holds. *)
Definition place_order_data (db : database) (env : session) (data : json)
    : option (outcome receipt * database) :=
  has_cart ← py_contains (py "cartItems") data;
  has_contact ←
    (if has_cart then py_contains (py "contactInfo") data else Some false);
  if negb (has_cart && has_contact) then
    Some (Message 400 (py "Invalid order data structure"), db)
  else
    final_amount ← compute_final_amount data;
    let new_order_id := new_order_id db in
    contact_info ← py_get data (py "contactInfo") (JObj []);
    contact_name ← py_get contact_info (py "name") (JStr (py "N/A"));
    contact_phone ← py_get contact_info (py "phone") (JStr (py "N/A"));
    delivery_address ← py_get contact_info (py "address") JNull;
    pickup_type ← py_get data (py "pickupType") (JStr (py "pickup"));
    delivery_address ← normalize_address delivery_address;
    new_contact ←
      flush_contact db env contact_name contact_phone delivery_address
        pickup_type;
    cart ← py_getitem data (py "cartItems");
    let new_db_order :=
      Order.mk (next_rowid (Order.id <$> orders db)) new_order_id
        (py "pending") (float_column final_amount) (json_dumps cart)
        (now env) (ContactInfo.id new_contact) in
    if commit_fails env || negb (order_id_free db new_order_id) then
      Some (Message 500 (py "Database insertion failed"), db)
    else
      Some (Reply 201
              (Receipt (py "Order placed successfully!")
                 (Order.order_id new_db_order)
                 (Order.final_amount new_db_order)
                 (py "Time calculation removed for simplicity, or use calculated time here")),
            Database (contacts db ++ [new_contact])
              (orders db ++ [new_db_order])).

Definition place_order (db : database) (env : session) (body : request_body)
    : outcome receipt * database :=
  match body with
  | NotJson => (Message 400 (py "Missing JSON in request"), db)
  | Malformed => (BadRequest, db)
  | Json data => default (Unhandled, db) (place_order_data db env data)
  end.
(** *** GET /api/orders/all *)

Record order_summary := OrderSummary {
  summary_order_id : Z;
  summary_content : pystr;
  summary_final_amount : num;
  summary_customer_name : pystr;
  summary_contact_phone_last_three : pystr;
  summary_status : pystr;
  summary_pickup_type : pystr;
  summary_delivery_address : option pystr;
  summary_created_at : pystr;
}.

Definition unparseable : pystr := py "無法解析訂單內容".

(** Lines 175-176: one line of the content summary. *)
Definition all_orders_line (item : json) : option pystr :=
  raw_options ← py_get item (py "options") (JStr []);
  options ←
    match raw_options with
    | JStr s => Some (str_split_first (py " / ") s)
    | _ => None
    end;
  name ← py_get item (py "name") (JStr (py "未知飲品"));
  quantity ← py_get item (py "quantity") (JInt 1);
  Some (py_str name ++ py " (" ++ options ++ py ") x " ++ py_str quantity).

(** Lines 171-180: the [try] block and its bare [except]. *)
Definition all_orders_content (items_json : pystr) : pystr :=
  default unparseable
    (items_data ← json_loads items_json;
     items ← py_iter items_data;
     content_summary ← mapM all_orders_line items;
     Some (str_join (py ", ") content_summary)).

Definition all_orders_entry (db : database) (order : Order.t)
    : option order_summary :=
  contact ← contact_of db order;
  let customer_name := ContactInfo.contact_name contact in
  let phone_full :=
    if bool_decide (ContactInfo.contact_phone contact = []) then py "N/A"
    else ContactInfo.contact_phone contact in
  let phone_last_three := phone_full in
  Some (OrderSummary (Order.id order)
          (all_orders_content (Order.items_json order))
          (Order.final_amount order) customer_name phone_last_three
          (Order.status order) (ContactInfo.pickup_type contact)
          (ContactInfo.delivery_address contact)
          (isoformat (Order.created_at order))).

Definition get_all_orders (db : database) : outcome (list order_summary) :=
  let orders := order_by_desc Order.id (orders db) in
  match mapM (all_orders_entry db) orders with
  | Some orders_list => Reply 200 orders_list
  | None => Unhandled
  end.

(** *** GET /api/order/query *)

Record query_result := QueryResult {
  result_order_id : Z;
  result_content : pystr;
  result_final_amount : num;
  result_created_at : pystr;
  result_pickup_type : pystr;
  result_address : option pystr;
}.

(** Line 226. *)
Definition query_line (item : json) : option pystr :=
  name ← py_get item (py "name") (JStr (py "飲品"));
  quantity ← py_get item (py "quantity") (JInt 1);
  Some (py_str name ++ py " x " ++ py_str quantity).

(** Lines 222-229. *)
Definition query_content (items_json : pystr) : pystr :=
  default unparseable
    (items_data ← json_loads items_json;
     items ← py_iter items_data;
     content_summary ← mapM query_line items;
     Some (str_join (py ", ") content_summary)).

Definition query_entry (db : database) (order : Order.t)
    : option query_result :=
  contact ← contact_of db order;
  Some (QueryResult (Order.order_id order)
          (query_content (Order.items_json order))
          (Order.final_amount order)
          (strftime_seconds (Order.created_at order))
          (ContactInfo.pickup_type contact)
          (ContactInfo.delivery_address contact)).

(** Line 204; [None] is an absent query parameter. *)
Definition valid_suffix (phone_suffix : option pystr) : bool :=
  match phone_suffix with
  | None => false
  | Some s =>
      negb (bool_decide (s = []) || negb (bool_decide (length s = 3%nat))
            || negb (str_isdigit s))
  end.

(** Line 208. *)
Definition matching_contacts (db : database) (phone_suffix : pystr)
    : list ContactInfo.t :=
  filter (λ c, ContactInfo.contact_phone c = phone_suffix) (contacts db).

(** Line 214. *)
Definition orders_of_contacts (db : database) (contact_ids : list Z)
    : list Order.t :=
  order_by_desc Order.created_at
    (filter (λ o, Order.contact_id o ∈ contact_ids) (orders db)).

Definition query_order_by_phone (db : database)
    (phone_suffix : option pystr) : outcome (list query_result) :=
  if negb (valid_suffix phone_suffix) then
    Message 400 (py "請提供正確的 3 位數字手機後三碼進行查詢。")
  else
    let contacts := matching_contacts db (default [] phone_suffix) in
    if bool_decide (contacts = []) then
      Message 404 (py "查無訂單，請確認手機後三碼是否正確。")
    else
      let contact_ids := ContactInfo.id <$> contacts in
      let orders := orders_of_contacts db contact_ids in
      match mapM (query_entry db) orders with
      | Some result_list => Reply 200 result_list
      | None => Unhandled
      end.

(** *** POST /api/orders/clear *)

Record clear_report := ClearReport {
  clear_message : pystr;
  deleted_count : Z;
}.

Definition clear_all_orders (db : database) (env : session)
    : outcome clear_report * database :=
  if commit_fails env then
    (Message 500 (py "清空訂單失敗: " ++ error_text env), db)
  else
    (Reply 200
       (ClearReport
          (py "成功刪除所有訂單和聯絡人記錄，訂單編號將從 1001 開始。") 0),
     Database [] []).
End handlers.


(** ** The specification's side *)

Section specification.
Context {fl : PyFloat} {rt : PyRuntime}.

(** A cart item's numeric field, 0 when the item lacks it (spec 4.2). *)
Definition field_or_zero (item : json) (k : pystr) : Z :=
  match py_getitem item k with
  | Some (JInt z) => z
  | _ => 0
  end.

(** Σ (price × quantity) over the cart. *)
Definition spec_subtotal (items : list json) : Z :=
  foldr Z.add 0
    ((λ item, field_or_zero item (py "price")
              * field_or_zero item (py "quantity")) <$> items).

(** 50 if pickupType == "delivery", else 0. *)
Definition spec_delivery_fee (data : json) : Z :=
  match py_getitem data (py "pickupType") with
  | Some (JStr s) => if bool_decide (s = py "delivery") then 50 else 0
  | _ => 0
  end.

Definition spec_final_amount (data : json) (items : list json) : Z :=
  spec_subtotal items + spec_delivery_fee data.

(** (max existing orderNumber) + 1, or 1001 when no orders exist. *)
Definition spec_next_order_number (numbers : list Z) : Z :=
  match numbers with
  | [] => 1001
  | n :: rest => foldr Z.max n rest + 1
  end.

(** The input schema of spec 4.2: [cartItems] a sequence of items whose
    price and quantity, when present, are integers; [contactInfo] with
    name, phone and address strings, each optional (address may also be
    null); [pickupType] a string, optional. *)
Definition int_field (kvs : list (pystr * json)) (k : pystr) : bool :=
  match dict_lookup k kvs with
  | None | Some (JInt _) => true
  | _ => false
  end.

Definition text_field (kvs : list (pystr * json)) (k : pystr) : bool :=
  match dict_lookup k kvs with
  | None | Some (JStr _) => true
  | _ => false
  end.

Definition address_field (kvs : list (pystr * json)) : bool :=
  match dict_lookup (py "address") kvs with
  | None | Some JNull | Some (JStr _) => true
  | _ => false
  end.

Definition well_formed_item (item : json) : bool :=
  match item with
  | JObj kvs => int_field kvs (py "price") && int_field kvs (py "quantity")
  | _ => false
  end.

Definition well_formed_contact (contact_info : json) : bool :=
  match contact_info with
  | JObj kvs =>
      text_field kvs (py "name") && text_field kvs (py "phone")
      && address_field kvs
  | _ => false
  end.

Definition well_formed_payload (data : json) : bool :=
  match data with
  | JObj kvs =>
      match dict_lookup (py "cartItems") kvs,
            dict_lookup (py "contactInfo") kvs with
      | Some (JArr items), Some contact_info =>
          forallb well_formed_item items
          && well_formed_contact contact_info
          && text_field kvs (py "pickupType")
      | _, _ => false
      end
  | _ => false
  end.

Definition cart_of (data : json) : list json :=
  match py_getitem data (py "cartItems") with
  | Some (JArr items) => items
  | _ => []
  end.

Definition contact_info_of (data : json) : json :=
  default JNull (py_getitem data (py "contactInfo")).

(** A text field of a mapping, with the default the spec gives it. *)
Definition text_or (dflt : pystr) (v : json) (k : pystr) : pystr :=
  match py_getitem v k with
  | Some (JStr s) => s
  | _ => dflt
  end.

(** The address after normalization: trimmed, absent when nothing is
    left or nothing was given. *)
Definition spec_address (contact_info : json) : option pystr :=
  match py_getitem contact_info (py "address") with
  | Some (JStr s) =>
      if bool_decide (str_strip s = []) then None else Some (str_strip s)
  | _ => None
  end.

(** The Contact row of spec 4.2, step 6. *)
Definition spec_contact (db : database) (data : json) : ContactInfo.t :=
  ContactInfo.mk (next_rowid (ContactInfo.id <$> contacts db))
    (text_or (py "N/A") (contact_info_of data) (py "name"))
    (text_or (py "N/A") (contact_info_of data) (py "phone"))
    (spec_address (contact_info_of data))
    (text_or (py "pickup") data (py "pickupType")).

(** The Order row of step 7. *)
Definition spec_order (db : database) (env : session) (data : json)
    : Order.t :=
  Order.mk (next_rowid (Order.id <$> orders db))
    (spec_next_order_number (Order.order_id <$> orders db))
    (py "pending")
    (float_column (NInt (spec_final_amount data (cart_of data))))
    (json_dumps (JArr (cart_of data)))
    (now env)
    (next_rowid (ContactInfo.id <$> contacts db)).

(** A storage engine without faults. *)
Definition healthy (env : session) : bool :=
  negb (flush_fails env) && negb (commit_fails env).

(** Requests served one after the other, each on the database its
    predecessor left. *)
Fixpoint place_orders (db : database)
    (requests : list (session * request_body))
    : list (outcome receipt) * database :=
  match requests with
  | [] => ([], db)
  | (env, body) :: rest =>
      let '(r, db') := place_order db env body in
      let '(rs, db'') := place_orders db' rest in
      (r :: rs, db'')
  end.

(** The order numbers handed out by the successful ones. *)
Definition order_numbers (rs : list (outcome receipt)) : list Z :=
  omap (λ r, match r with
             | Reply _ body => Some (receipt_order_id body)
             | _ => None
             end) rs.

(** Descending order on a key. *)
Definition descending {A} (key : A → Z) (rows : list A) : Prop :=
  Sorted (key_ge key) rows.

(** [t] is [s] without its leading and trailing whitespace. *)
Definition trimmed_of (s t : pystr) : Prop :=
  (∃ l r, s = l ++ t ++ r
          ∧ Forall (λ c, char_isspace c = true) l
          ∧ Forall (λ c, char_isspace c = true) r)
  ∧ (∀ c, head t = Some c → char_isspace c = false)
  ∧ (∀ c, last t = Some c → char_isspace c = false).
End specification.

(** ** A small runtime on which the properties are exercised

    Integer-only (it has no float values), with the ASCII digits, CPython's
    whitespace table, a compact JSON printer, and a [json.loads] that
    recognises the documents of [known_documents] and rejects all other
    text. *)
Module Demo.
#[export] Instance no_floats : PyFloat := {|
  float := Empty_set;
  float_add := λ x _, x;
  float_mul := λ x _, x;
  float_of_int := λ _, None;
  float_is_zero := λ _, false;
|}.

Definition isdigit (c : Z) : bool := (48 <=? c) && (c <=? 57).

Definition isspace (c : Z) : bool :=
  ((9 <=? c) && (c <=? 13)) || ((28 <=? c) && (c <=? 32))
  || bool_decide (c ∈ [133; 160; 5760; 8232; 8233; 8239; 8287; 12288])
  || ((8192 <=? c) && (c <=? 8202)).

Definition quoted (q : Z) (s : pystr) : pystr := q :: s ++ [q].

(** [q] is the quote character: 34 for JSON text, 39 for [repr]. *)
Fixpoint show (q : Z) (null true false : pystr) (v : json) : pystr :=
  match v with
  | JNull => null
  | JBool b => if b then true else false
  | JInt z => int_str z
  | JFloat f => match f with end
  | JStr s => quoted q s
  | JArr l => py "[" ++ str_join (py ", ") (map (show q null true false) l) ++ py "]"
  | JObj kvs =>
      py "{"
      ++ str_join (py ", ")
           (map (λ kv, let '(k, x) := kv in
                       quoted q k ++ py ": " ++ show q null true false x) kvs)
      ++ py "}"
  end.

Definition dumps : json → pystr := show 34 (py "null") (py "true") (py "false").

Definition str (v : json) : pystr :=
  match v with
  | JStr s => s
  | _ => show 39 (py "None") (py "True") (py "False") v
  end.

Definition milk_tea : json :=
  JObj [(py "name", JStr (py "Milk Tea")); (py "price", JInt 60);
        (py "quantity", JInt 1)].

Definition nameless : json :=
  JObj [(py "price", JInt 40); (py "options", JStr (py "large / no ice"))].

Definition known_documents : list json :=
  [JArr []; JArr [milk_tea]; JArr [nameless]; JArr [milk_tea; nameless];
   JInt 5].

Definition loads (text : pystr) : option json :=
  head (filter (λ v, dumps v = text) known_documents).

Definition text_of (v : json) : option pystr :=
  match v with
  | JStr s => Some s
  | JInt z => Some (int_str z)
  | JBool b => Some (if b then py "1" else py "0")
  | _ => None
  end.

(** The integer nearest to [z] among the doubles, ties to even. *)
Definition round_to_double (z : Z) : Z :=
  let a := Z.abs z in
  if a <=? 2 ^ 53 then z
  else
    let e := Z.log2 a - 52 in
    let q := Z.shiftr a e in
    let r := Z.land a (Z.ones e) in
    let half := Z.shiftl 1 (e - 1) in
    let q' := if (half <? r) || ((r =? half) && Z.odd q) then q + 1 else q in
    Z.sgn z * Z.shiftl q' e.

Definition column (n : num) : num :=
  match n with
  | NInt z => NInt (round_to_double z)
  | NFloat f => NFloat f
  end.

#[local] Obligation Tactic := try done.

#[export] Program Instance runtime : PyRuntime := {|
  char_isdigit := isdigit;
  char_isspace := isspace;
  json_dumps := dumps;
  json_loads := loads;
  py_str := str;
  sql_text := text_of;
  float_column := column;
  isoformat := int_str;
  strftime_seconds := int_str;
|}.
Next Obligation.
  intros c Hc. unfold isspace.
  rewrite (bool_decide_eq_false_2 (c ∈ _)).
  - destruct (8192 <=? c) eqn:E; [apply Z.leb_le in E; lia|].
    simpl. by rewrite !orb_false_r.
  - rewrite !elem_of_cons, elem_of_nil. lia.
Qed.

Next Obligation.
  intros z Hz. unfold column, round_to_double.
  destruct (Z.abs z <=? 2 ^ 53) eqn:E; [done|]. apply Z.leb_gt in E. lia.
Qed.

Definition amy : json :=
  JObj [(py "name", JStr (py "Amy")); (py "phone", JStr (py "123"));
        (py "address", JStr (py "   "))].

Definition bob : json :=
  JObj [(py "name", JStr (py "Bob")); (py "phone", JStr (py "456"));
        (py "address", JStr (py "  5 Tea Road "))].

Definition checkout_for (contact : json) (cart : list json) (pickup : string)
    : json :=
  JObj [(py "cartItems", JArr cart); (py "contactInfo", contact);
        (py "pickupType", JStr (py pickup))].

Definition checkout : list json → string → json := checkout_for amy.

Definition empty_db : database := Database [] [].

Definition calm (t : Z) : session := Session t false false [].

Definition item_a : json :=
  JObj [(py "name", JStr (py "A")); (py "price", JInt 60);
        (py "quantity", JInt 2)].

Definition three_requests : list (session * request_body) :=
  [(calm 10, Json (checkout [milk_tea] "pickup"));
   (calm 20, Json (checkout [milk_tea; nameless] "delivery"));
   (calm 30, Json (checkout [] "pickup"))].

(** The same three with a rejected request and a storage fault between
    them. *)
Definition five_requests : list (session * request_body) :=
  [(calm 10, Json (checkout [milk_tea] "pickup"));
   (calm 15, Json (JObj [(py "cartItems", JArr [])]));
   (calm 20, Json (checkout [milk_tea; nameless] "delivery"));
   (Session 25 false true [], Json (checkout [milk_tea] "pickup"));
   (calm 30, Json (checkout [] "pickup"))].

Definition two_orders : database :=
  (place_orders empty_db (take 2 three_requests)).2.

(** Two rows written by other means: a contact that keeps a full phone
    number, and an order whose items are not JSON. *)
Definition legacy_db : database :=
  Database
    [ContactInfo.mk 1 (py "Amy") (py "123") None (py "pickup");
     ContactInfo.mk 2 (py "Bob") (py "0912345123") None (py "pickup")]
    [Order.mk 1 1001 (py "pending") (NInt 60) (dumps (JArr [milk_tea])) 10 1;
     Order.mk 2 1002 (py "pending") (NInt 40) (py "{not json") 20 2].
End Demo.

(** ** Stores over time *)

Section stores.
Context {fl : PyFloat} {rt : PyRuntime}.

(** What the handlers keep true of the store: primary keys and order
    numbers are unique, and every order refers to a contact row. *)
Record consistent (db : database) : Prop := Consistent {
  order_ids_unique : NoDup (Order.id <$> orders db);
  contact_ids_unique : NoDup (ContactInfo.id <$> contacts db);
  order_numbers_unique : NoDup (Order.order_id <$> orders db);
  contacts_resolve :
    ∀ o, o ∈ orders db →
         Order.contact_id o ∈ ContactInfo.id <$> contacts db;
}.

(** The numbering of a store that has only been written through the
    handlers since it was last empty: row [k] of either table has id [k],
    order [k] has number [1000 + k] and refers to contact [k]. *)
Definition densely_numbered (db : database) : Prop :=
  let n := Z.of_nat (length (orders db)) in
  Order.id <$> orders db = seqZ 1 n
  ∧ Order.order_id <$> orders db = seqZ 1001 n
  ∧ Order.contact_id <$> orders db = seqZ 1 n
  ∧ ContactInfo.id <$> contacts db = seqZ 1 n.

(** The requests that write. *)
Inductive write_request : Type :=
  | PlaceOrder (env : session) (body : request_body)
  | ClearAllOrders (env : session).

Definition serve (db : database) (request : write_request) : database :=
  match request with
  | PlaceOrder env body => (place_order db env body).2
  | ClearAllOrders env => (clear_all_orders db env).2
  end.

Definition serve_all (db : database) (requests : list write_request)
    : database :=
  foldl serve db requests.

(** A value that arithmetic accepts. *)
Definition is_number (v : json) : bool :=
  match as_num v with
  | Some _ => true
  | None => false
  end.

(** A cart item on which line 91 raises whatever the running total: not a
    mapping, or with a price or a quantity that is not a number. *)
Definition bad_item (item : json) : bool :=
  match item with
  | JObj kvs =>
      negb (is_number (default (JInt 0) (dict_lookup (py "price") kvs))
            && is_number (default (JInt 0) (dict_lookup (py "quantity") kvs)))
  | _ => true
  end.

(** A payload that gets past the membership test of line 85 as a mapping
    with both keys. *)
Definition has_both_keys (data : json) : bool :=
  match data with
  | JObj kvs =>
      bool_decide (is_Some (dict_lookup (py "cartItems") kvs))
      && bool_decide (is_Some (dict_lookup (py "contactInfo") kvs))
  | _ => false
  end.

(** The contact part and the pickup type of a payload fit the input
    schema (the cart is left open). *)
Definition well_formed_contact_part (data : json) : bool :=
  match data with
  | JObj kvs =>
      match dict_lookup (py "contactInfo") kvs with
      | Some contact_info =>
          well_formed_contact contact_info && text_field kvs (py "pickupType")
      | None => false
      end
  | _ => false
  end.

Definition is_text (v : json) : bool :=
  match v with
  | JStr _ => true
  | _ => false
  end.

Definition is_mapping (v : json) : bool :=
  match v with
  | JObj _ => true
  | _ => false
  end.

(** A value of [cartItems] on which the loop of line 90 raises: not
    iterable, or iterable with elements that are strings (the keys of a
    mapping, the characters of a string). *)
Definition unusable_cart (cart : json) : bool :=
  match cart with
  | JArr _ => false
  | JStr s => negb (bool_decide (s = []))
  | JObj kvs => negb (bool_decide (kvs = []))
  | _ => true
  end.

(** [s] has an occurrence of [sub] at offset [i]. *)
Definition occurs_at (sub s : pystr) (i : nat) : Prop :=
  ∃ rest, drop i s = sub ++ rest.
End stores.

Module Samples.
Import Demo.

Definition busy_day : list write_request :=
  [PlaceOrder (calm 10) (Json (checkout [milk_tea] "pickup"));
   PlaceOrder (calm 11) (Json (JInt 5));
   PlaceOrder (calm 12) (Json (checkout_for bob [item_a] "delivery"));
   ClearAllOrders (Session 13 false true (py "disk full"));
   PlaceOrder (calm 14) (Json (checkout [] "pickup"))].

Definition string_price : json :=
  JObj [(py "name", JStr (py "A")); (py "price", JStr (py "60"));
        (py "quantity", JInt 1)].

Definition nobody : json :=
  JObj [(py "name", JNull); (py "phone", JStr (py "123"))].

Definition numbered_house : json :=
  JObj [(py "name", JStr (py "Eve")); (py "phone", JStr (py "777"));
        (py "address", JInt 12)].

Definition costly : json :=
  JObj [(py "name", JStr (py "Gold leaf")); (py "price", JInt (2 ^ 53 + 1));
        (py "quantity", JInt 1)].

Definition with_cart (cart : json) : json :=
  JObj [(py "cartItems", cart); (py "contactInfo", amy);
        (py "pickupType", JStr (py "delivery"))].
End Samples.

Arguments py : simpl never.

(** ** Properties *)

Section properties.
Context {fl : PyFloat} {rt : PyRuntime}.

Lemma py_get_int_field kvs k :
  int_field kvs k = true →
  py_get (JObj kvs) k (JInt 0) = Some (JInt (field_or_zero (JObj kvs) k)).
Proof.
  unfold int_field, field_or_zero, py_get, py_getitem.
  destruct (dict_lookup k kvs) as [[]|]; simpl; congruence.
Qed.

Lemma sum_cart_well_formed items t :
  forallb well_formed_item items = true →
  sum_cart (NInt t) items = Some (NInt (t + spec_subtotal items)).
Proof.
  revert t. induction items as [|item items IH]; intros t Hwf.
  - simpl. f_equal. f_equal. unfold spec_subtotal. simpl. lia.
  - simpl in Hwf. apply andb_prop in Hwf as [Hitem Hrest].
    destruct item; try discriminate.
    apply andb_prop in Hitem as [Hp Hq].
    cbn [sum_cart]. rewrite (py_get_int_field _ _ Hp), (py_get_int_field _ _ Hq).
    cbn. rewrite IH by done. f_equal. f_equal.
    unfold spec_subtotal. cbn. lia.
Qed.

#[local] Instance key_ge_trans {A} (key : A → Z) : Transitive (key_ge key).
Proof. unfold key_ge. intros x y z ??. lia. Qed.

#[local] Instance key_ge_total {A} (key : A → Z) : Total (key_ge key).
Proof. unfold key_ge. intros x y. lia. Qed.

Lemma order_by_desc_perm {A} (key : A → Z) rows :
  order_by_desc key rows ≡ₚ rows.
Proof. apply merge_sort_Permutation. Qed.

Lemma order_by_desc_sorted {A} (key : A → Z) rows :
  descending key (order_by_desc key rows).
Proof. apply (Sorted_merge_sort _). Qed.

Lemma first_order_by_desc_None {A} (key : A → Z) rows :
  first (order_by_desc key rows) = None → rows = [].
Proof.
  unfold first. intros H. apply head_None in H.
  apply Permutation_nil_r. rewrite <- H. symmetry. apply order_by_desc_perm.
Qed.

Lemma first_order_by_desc_Some {A} (key : A → Z) rows x :
  first (order_by_desc key rows) = Some x →
  x ∈ rows ∧ ∀ y, y ∈ rows → key y ≤ key x.
Proof.
  unfold first. intros H.
  pose proof (order_by_desc_perm key rows) as Hp.
  pose proof (StronglySorted_merge_sort (key_ge key) rows) as Hs.
  fold (order_by_desc key rows) in Hs.
  destruct (order_by_desc key rows) as [|x' l]; [done|].
  simpl in H. injection H as ->.
  split.
  - rewrite <- Hp. left.
  - intros y Hy. rewrite <- Hp in Hy.
    apply elem_of_cons in Hy as [->|Hy]; [done|].
    apply StronglySorted_inv in Hs as [_ Hall].
    rewrite Forall_forall in Hall. by apply Hall.
Qed.

Lemma foldr_max_upper n l y : y ∈ n :: l → y ≤ foldr Z.max n l.
Proof.
  induction l as [|a l IH]; simpl; intros Hy.
  - apply list_elem_of_singleton in Hy. lia.
  - apply elem_of_cons in Hy as [->|Hy].
    + specialize (IH ltac:(left)). lia.
    + apply elem_of_cons in Hy as [->|Hy]; [lia|].
      specialize (IH ltac:(by right)). lia.
Qed.

Lemma foldr_max_member n l : foldr Z.max n l ∈ n :: l.
Proof.
  induction l as [|a l IH]; simpl; [left|].
  destruct (Z.max_spec a (foldr Z.max n l)) as [[_ ->]|[_ ->]].
  - apply elem_of_cons in IH as [->|IH]; [left|by do 2 right].
  - right; left.
Qed.

Lemma new_order_id_spec db :
  new_order_id db = spec_next_order_number (Order.order_id <$> orders db).
Proof.
  unfold new_order_id.
  destruct (first _) as [x|] eqn:Hfirst.
  - apply first_order_by_desc_Some in Hfirst as [Hx Hmax].
    destruct (orders db) as [|o rest] eqn:Ho; [by apply elem_of_nil in Hx|].
    cbn [fmap list_fmap spec_next_order_number]. f_equal.
    apply Z.le_antisymm.
    + apply foldr_max_upper. rewrite <- fmap_cons.
      by apply list_elem_of_fmap_2.
    + pose proof (foldr_max_member (Order.order_id o) (Order.order_id <$> rest)) as Hm.
      rewrite <- fmap_cons in Hm.
      apply list_elem_of_fmap in Hm as (y & -> & Hy). by apply Hmax.
  - apply first_order_by_desc_None in Hfirst. by rewrite Hfirst.
Qed.

Lemma new_order_id_above db o :
  o ∈ orders db → Order.order_id o < new_order_id db.
Proof.
  rewrite new_order_id_spec. intros Ho.
  apply (list_elem_of_fmap_2 Order.order_id) in Ho.
  destruct (Order.order_id <$> orders db) as [|n rest]; [by apply elem_of_nil in Ho|].
  simpl. pose proof (foldr_max_upper _ _ _ Ho). lia.
Qed.

Lemma new_order_id_free db : order_id_free db (new_order_id db) = true.
Proof.
  unfold order_id_free. apply forallb_forall. intros o Ho.
  apply list_elem_of_In, new_order_id_above in Ho.
  apply negb_true_iff, Z.eqb_neq. lia.
Qed.

Lemma py_contains_key k kvs v :
  dict_lookup k kvs = Some v → py_contains k (JObj kvs) = Some true.
Proof. intros H. simpl. rewrite H. done. Qed.

Lemma py_get_text_field kvs k dflt :
  text_field kvs k = true →
  py_get (JObj kvs) k (JStr dflt) = Some (JStr (text_or dflt (JObj kvs) k)).
Proof.
  unfold text_field, text_or, py_get, py_getitem.
  destruct (dict_lookup k kvs) as [[]|]; simpl; congruence.
Qed.

Lemma normalize_address_field ci :
  address_field ci = true →
  ∃ a, normalize_address (default JNull (dict_lookup (py "address") ci)) = Some a
       ∧ bind_nullable a = Some (spec_address (JObj ci)).
Proof.
  unfold address_field, spec_address, py_getitem.
  destruct (dict_lookup (py "address") ci) as [[]|]; try discriminate; intros _.
  - exists JNull. done.
  - unfold normalize_address, py_truthy, py_eq_str, str_eqb. simpl.
    repeat case_bool_decide; simplify_eq/=.
    + by exists JNull.
    + rewrite bool_decide_eq_true_2 by done. by exists JNull.
    + rewrite bool_decide_eq_false_2 by done. eexists. split; [done|].
      simpl. by rewrite sql_text_str.
  - exists JNull. done.
Qed.

Lemma compute_final_amount_well_formed kvs items :
  dict_lookup (py "cartItems") kvs = Some (JArr items) →
  forallb well_formed_item items = true →
  compute_final_amount (JObj kvs)
  = Some (NInt (spec_final_amount (JObj kvs) items)).
Proof.
  intros Hcart Hitems. unfold compute_final_amount. simpl. rewrite Hcart. simpl.
  rewrite (sum_cart_well_formed _ _ Hitems). simpl.
  unfold spec_final_amount, spec_delivery_fee, py_getitem.
  destruct (dict_lookup (py "pickupType") kvs) as [[]|]; simpl; done.
Qed.

Lemma place_order_well_formed db env data :
  well_formed_payload data = true →
  healthy env = true →
  place_order db env (Json data)
  = (Reply 201
       (Receipt (py "Order placed successfully!")
          (spec_next_order_number (Order.order_id <$> orders db))
          (float_column (NInt (spec_final_amount data (cart_of data))))
          (py "Time calculation removed for simplicity, or use calculated time here")),
     Database (contacts db ++ [spec_contact db data])
       (orders db ++ [spec_order db env data])).
Proof.
  intros Hwf Henv.
  destruct data as [| | | | | |kvs]; try discriminate. simpl in Hwf.
  destruct (dict_lookup (py "cartItems") kvs) as [[| | | | |items|]|] eqn:Hcart;
    try discriminate.
  destruct (dict_lookup (py "contactInfo") kvs) as [contact_info|] eqn:Hci;
    try discriminate.
  apply andb_prop in Hwf as [Hwf Hpickup]. apply andb_prop in Hwf as [Hitems Hcontact].
  destruct contact_info as [| | | | | |ci]; try discriminate. simpl in Hcontact.
  apply andb_prop in Hcontact as [Hcontact Haddress].
  apply andb_prop in Hcontact as [Hname Hphone].
  apply andb_prop in Henv as [Hflush Hcommit].
  apply negb_true_iff in Hflush, Hcommit.
  destruct (normalize_address_field ci Haddress) as (a & Hnorm & Hbind).
  unfold place_order, place_order_data.
  rewrite (py_contains_key _ _ _ Hcart). cbn [mbind option_bind].
  rewrite (py_contains_key _ _ _ Hci). cbn [mbind option_bind andb negb].
  rewrite (compute_final_amount_well_formed _ _ Hcart Hitems). cbn [mbind option_bind].
  assert (py_get (JObj kvs) (py "contactInfo") (JObj []) = Some (JObj ci)) as ->.
  { simpl. by rewrite Hci. }
  cbn [mbind option_bind].
  rewrite (py_get_text_field _ _ _ Hname), (py_get_text_field _ _ _ Hphone).
  cbn [mbind option_bind].
  assert (py_get (JObj ci) (py "address") JNull
          = Some (default JNull (dict_lookup (py "address") ci))) as -> by done.
  cbn [mbind option_bind].
  rewrite (py_get_text_field _ _ _ Hpickup). cbn [mbind option_bind].
  rewrite Hnorm. cbn [mbind option_bind].
  unfold flush_contact. rewrite Hflush.
  cbn [bind_required mbind option_bind]. rewrite !sql_text_str, Hbind.
  cbn [mbind option_bind].
  assert (py_getitem (JObj kvs) (py "cartItems") = Some (JArr items)) as -> by done.
  cbn [mbind option_bind].
  rewrite Hcommit, new_order_id_free. cbn [orb negb default].
  unfold spec_contact, spec_order, contact_info_of, cart_of.
  cbn [py_getitem Order.order_id Order.final_amount ContactInfo.id].
  rewrite Hci, Hcart, new_order_id_spec. done.
Qed.

Lemma place_order_data_cases db env data out db' :
  place_order_data db env data = Some (out, db') →
  (db' = db ∧ ∃ st msg, out = Message st msg ∧ (st = 400 ∨ st = 500))
  ∨ ∃ contact_info address a c o,
      py_getitem data (py "contactInfo") = Some contact_info
      ∧ py_get contact_info (py "address") JNull = Some address
      ∧ normalize_address address = Some a
      ∧ bind_nullable a = Some (ContactInfo.delivery_address c)
      ∧ (∃ amount, compute_final_amount data = Some amount
                   ∧ Order.final_amount o = float_column amount)
      ∧ Order.order_id o = new_order_id db
      ∧ out = Reply 201
                (Receipt (py "Order placed successfully!") (new_order_id db)
                   (Order.final_amount o)
                   (py "Time calculation removed for simplicity, or use calculated time here"))
      ∧ db' = Database (contacts db ++ [c]) (orders db ++ [o]).
Proof.
  unfold place_order_data. intros H.
  apply bind_Some in H as (has_cart & _ & H).
  apply bind_Some in H as (has_contact & Hcontact & H).
  destruct (negb (has_cart && has_contact)) eqn:Hboth.
  { injection H as <- <-. left. eauto 6. }
  apply negb_false_iff, andb_prop in Hboth as [-> ->].
  apply bind_Some in H as (final_amount & Hamount & H).
  apply bind_Some in H as (contact_info & Hci & H).
  assert (py_getitem data (py "contactInfo") = Some contact_info) as Hitem.
  { destruct data as [| | | | | |kvs]; try discriminate. simpl in *.
    destruct (dict_lookup (py "contactInfo") kvs); [done|].
    by rewrite bool_decide_eq_false_2 in Hcontact by (by intros [? ?]). }
  clear Hci Hcontact.
  apply bind_Some in H as (contact_name & _ & H).
  apply bind_Some in H as (contact_phone & _ & H).
  apply bind_Some in H as (address & Haddress & H).
  apply bind_Some in H as (pickup_type & _ & H).
  apply bind_Some in H as (a & Hnorm & H).
  apply bind_Some in H as (c & Hflush & H).
  apply bind_Some in H as (cart & _ & H).
  destruct (commit_fails env || negb (order_id_free db (new_order_id db))).
  { injection H as <- <-. left. eauto 6. }
  injection H as <- <-. right.
  unfold flush_contact in Hflush. destruct (flush_fails env); [done|].
  apply bind_Some in Hflush as (name & _ & Hflush).
  apply bind_Some in Hflush as (phone & _ & Hflush).
  apply bind_Some in Hflush as (addr & Hbind & Hflush).
  apply bind_Some in Hflush as (pickup & _ & Hflush).
  injection Hflush as <-.
  eexists contact_info, address, a, _, _. repeat split; eauto.
Qed.

Lemma place_order_cases db env body :
  (∃ st msg, place_order db env body = (Message st msg, db))
  ∨ place_order db env body = (BadRequest, db)
  ∨ place_order db env body = (Unhandled, db)
  ∨ ∃ r o c,
      place_order db env body = (Reply 201 r,
                                 Database (contacts db ++ [c]) (orders db ++ [o]))
      ∧ receipt_order_id r = new_order_id db
      ∧ Order.order_id o = new_order_id db
      ∧ Order.final_amount o = receipt_final_amount r.
Proof.
  destruct body as [| |data]; simpl; eauto.
  destruct (place_order_data db env data) as [[out db']|] eqn:H; simpl; eauto.
  apply place_order_data_cases in H
    as [(-> & st & msg & -> & _)|(ci & ad & a & c & o & _ & _ & _ & _ & _ & Ho & -> & ->)];
    eauto 10.
Qed.


Lemma spec_next_order_number_snoc numbers :
  spec_next_order_number (numbers ++ [spec_next_order_number numbers])
  = spec_next_order_number numbers + 1.
Proof.
  destruct numbers as [|n l]; [done|].
  cbn [app spec_next_order_number]. f_equal.
  set (x := foldr Z.max n l + 1).
  pose proof (foldr_max_member n (l ++ [x])) as Hmem.
  pose proof (foldr_max_upper n (l ++ [x]) x) as Hx.
  rewrite app_comm_cons in Hmem, Hx.
  apply elem_of_app in Hmem as [Hmem|Hmem].
  - apply foldr_max_upper in Hmem.
    assert (x ∈ (n :: l) ++ [x]) as Hin by (apply elem_of_app; right; left).
    specialize (Hx Hin). lia.
  - by apply list_elem_of_singleton in Hmem.
Qed.

Lemma new_order_id_snoc db cs o :
  Order.order_id o = new_order_id db →
  new_order_id (Database cs (orders db ++ [o])) = new_order_id db + 1.
Proof.
  intros Ho. rewrite !new_order_id_spec. cbn [orders].
  rewrite fmap_app. cbn [fmap list_fmap]. rewrite Ho, new_order_id_spec.
  apply spec_next_order_number_snoc.
Qed.

Lemma place_orders_numbers db requests :
  order_numbers (place_orders db requests).1
  = seqZ (new_order_id db)
      (Z.of_nat (length (order_numbers (place_orders db requests).1))).
Proof.
  revert db. induction requests as [|[env body] rest IH]; intros db; [done|].
  cbn [place_orders].
  destruct (place_order db env body) as [out db1] eqn:Hplace.
  specialize (IH db1).
  destruct (place_orders db1 rest) as [outs db2]. cbn [fst] in *.
  destruct (place_order_cases db env body)
    as [(st & msg & H)|[H|[H|(r & o & c & H & Hr & Ho & _)]]];
    rewrite Hplace in H; injection H as -> ->; try exact IH.
  rewrite (new_order_id_snoc _ _ _ Ho) in IH.
  unfold order_numbers in *. cbn [omap list_omap]. fold (@omap list _).
  set (numbers := omap _ outs) in *. cbn [length].
  rewrite Nat2Z.inj_succ, seqZ_cons by lia. rewrite Z.pred_succ.
  f_equal; [done|]. exact IH.
Qed.

Lemma order_numbers_length outs :
  Forall (λ out : outcome receipt, ∃ st r, out = Reply st r) outs →
  length (order_numbers outs) = length outs.
Proof.
  induction 1 as [|out outs (st & r & ->) _ IH]; [done|].
  unfold order_numbers in *. cbn. by rewrite IH.
Qed.

Lemma place_orders_length db requests :
  length (place_orders db requests).1 = length requests.
Proof.
  revert db. induction requests as [|[env body] rest IH]; intros db; [done|].
  cbn [place_orders]. destruct (place_order db env body) as [out db1].
  specialize (IH db1). destruct (place_orders db1 rest). cbn in *. by rewrite IH.
Qed.

(** C2: each new order takes (max existing orderNumber) + 1, or 1001 when
    there is no order; so the orders placed in sequence on a store
    without orders are numbered 1001, 1002, ... in placement order, and
    N successful placements use exactly 1001 .. 1000+N. *)
Theorem order_numbers_are_sequential db requests :
  orders db = [] →
  let outs := (place_orders db requests).1 in
  order_numbers outs = seqZ 1001 (Z.of_nat (length (order_numbers outs)))
  ∧ (Forall (λ out, ∃ st r, out = Reply st r) outs →
     order_numbers outs = seqZ 1001 (Z.of_nat (length requests)))
  ∧ (∀ db0 env body st r db',
       place_order db0 env body = (Reply st r, db') →
       receipt_order_id r
       = spec_next_order_number (Order.order_id <$> orders db0)
       ∧ ∃ o, orders db' = orders db0 ++ [o]
              ∧ Order.order_id o = receipt_order_id r).
Proof.
  intros Hempty outs.
  assert (order_numbers outs
          = seqZ 1001 (Z.of_nat (length (order_numbers outs)))) as Hseq.
  { subst outs. rewrite place_orders_numbers at 1.
    by rewrite new_order_id_spec, Hempty. }
  split; [exact Hseq|]. split.
  - intros Hall. rewrite Hseq, (order_numbers_length _ Hall).
    subst outs. by rewrite place_orders_length.
  - intros db0 env body st r db' Hplace.
    destruct (place_order_cases db0 env body)
      as [(? & ? & H)|[H|[H|(r' & o & c & H & Hr & Ho & _)]]];
      rewrite Hplace in H; try discriminate.
    injection H as _ -> ->. rewrite Hr, new_order_id_spec. split; [done|].
    exists o. by rewrite Ho, new_order_id_spec.
Qed.

Lemma spec_delivery_fee_cases data :
  spec_delivery_fee data = 0 ∨ spec_delivery_fee data = 50.
Proof.
  unfold spec_delivery_fee.
  destruct (py_getitem data (py "pickupType")) as [[]|]; auto.
  case_bool_decide; auto.
Qed.

Lemma float_column_fee data :
  float_column (NInt (spec_delivery_fee data)) = NInt (spec_delivery_fee data).
Proof.
  apply float_column_exact. destruct (spec_delivery_fee_cases data) as [-> | ->]; lia.
Qed.

(** C10: a payload whose cartItems is present but empty passes
    validation; the order is stored, and its final amount is the
    delivery fee alone: 50 for delivery, 0 for pickup. *)
Theorem empty_cart_is_accepted db env data :
  well_formed_payload data = true →
  py_getitem data (py "cartItems") = Some (JArr []) →
  healthy env = true →
  ∃ r o c,
    place_order db env (Json data)
    = (Reply 201 r, Database (contacts db ++ [c]) (orders db ++ [o]))
    ∧ Order.final_amount o = NInt (spec_delivery_fee data)
    ∧ receipt_final_amount r = NInt (spec_delivery_fee data)
    ∧ (py_getitem data (py "pickupType") = Some (JStr (py "delivery")) →
       Order.final_amount o = NInt 50)
    ∧ (py_getitem data (py "pickupType") = Some (JStr (py "pickup")) →
       Order.final_amount o = NInt 0).
Proof.
  intros Hwf Hcart Henv. rewrite (place_order_well_formed _ _ _ Hwf Henv).
  eexists _, _, _. split; [done|].
  unfold spec_order, spec_final_amount, cart_of. rewrite Hcart.
  cbn [Order.final_amount receipt_final_amount spec_subtotal fmap list_fmap
       foldr].
  rewrite Z.add_0_l, float_column_fee. split; [done|]. split; [done|].
  unfold spec_delivery_fee. split; by intros ->.
Qed.

(** C6: clearing removes every Order row and every Contact row and
    reports deleted_count 0 whatever the tables held; the next order
    placed successfully is numbered 1001. *)
Theorem clear_all_orders_resets_numbering db env :
  commit_fails env = false →
  ∃ report,
    clear_all_orders db env = (Reply 200 report, Database [] [])
    ∧ deleted_count report = 0
    ∧ (∀ env' body st r db',
         place_order (clear_all_orders db env).2 env' body = (Reply st r, db') →
         receipt_order_id r = 1001)
    ∧ (∀ env' data,
         well_formed_payload data = true → healthy env' = true →
         ∃ r db',
           place_order (clear_all_orders db env).2 env' (Json data)
           = (Reply 201 r, db')
           ∧ receipt_order_id r = 1001).
Proof.
  intros Hcommit. unfold clear_all_orders. rewrite Hcommit. cbn [snd].
  eexists. split; [done|]. split; [done|]. split.
  - intros env' body st r db' Hplace.
    destruct (place_order_cases (Database [] []) env' body)
      as [(? & ? & H)|[H|[H|(r' & o & c & H & Hr & _)]]];
      rewrite Hplace in H; try discriminate.
    injection H as _ -> _. by rewrite Hr.
  - intros env' data Hwf Henv.
    rewrite (place_order_well_formed _ _ _ Hwf Henv). eauto.
Qed.

Lemma place_order_rejects_incomplete db env body :
  body = NotJson ∨ body = Malformed
  ∨ (∃ kvs, body = Json (JObj kvs)
            ∧ (dict_lookup (py "cartItems") kvs = None
               ∨ dict_lookup (py "contactInfo") kvs = None)) →
  InvalidRequest (place_order db env body).1
  ∧ (place_order db env body).2 = db.
Proof.
  intros [->|[->|(kvs & -> & Hmissing)]]; [done..|].
  unfold place_order, place_order_data, py_contains.
  destruct (dict_lookup (py "cartItems") kvs) eqn:Hcart;
    destruct (dict_lookup (py "contactInfo") kvs) eqn:Hci;
    try (by destruct Hmissing); done.
Qed.

(** C8 (at the inputs where the handler departs from it): a JSON body
    that is a number, a boolean or null has no cartItems key, yet the
    membership test raises, the exception escapes the handler and the
    answer is 500 instead of InvalidRequest.  Nothing is stored. *)
Theorem place_order_scalar_payload_unhandled db env :
  (∀ z, place_order db env (Json (JInt z)) = (Unhandled, db))
  ∧ place_order db env (Json JNull) = (Unhandled, db)
  ∧ (∀ b, place_order db env (Json (JBool b)) = (Unhandled, db))
  ∧ (∀ f, place_order db env (Json (JFloat f)) = (Unhandled, db))
  ∧ status_code (place_order db env (Json (JInt 5))).1 = 500
  ∧ ¬ InvalidRequest (place_order db env (Json (JInt 5))).1.
Proof. repeat split; done. Qed.

Lemma str_lstrip_split s :
  ∃ l, s = l ++ str_lstrip s ∧ Forall (λ c, char_isspace c = true) l.
Proof.
  induction s as [|c s (l & Hs & Hl)]; [by exists []|].
  simpl. destruct (char_isspace c) eqn:Hc.
  - exists (c :: l). split; [by rewrite Hs at 1|by constructor].
  - by exists [].
Qed.

Lemma str_lstrip_head s c :
  head (str_lstrip s) = Some c → char_isspace c = false.
Proof.
  induction s as [|a s IH]; [done|]. simpl.
  destruct (char_isspace a) eqn:Ha; [done|]. simpl. congruence.
Qed.

Lemma str_lstrip_whitespace s :
  Forall (λ c, char_isspace c = true) s → str_lstrip s = [].
Proof. induction 1 as [|c s Hc _ IH]; [done|]. simpl. by rewrite Hc. Qed.

Lemma str_strip_trimmed s : trimmed_of s (str_strip s).
Proof.
  unfold str_strip.
  destruct (str_lstrip_split s) as (l & Hs & Hl).
  destruct (str_lstrip_split (reverse (str_lstrip s))) as (r & Hr & Hrs).
  set (t := str_lstrip (reverse (str_lstrip s))) in *.
  assert (str_lstrip s = reverse t ++ reverse r) as Hmid.
  { rewrite <- reverse_app, <- Hr. by rewrite reverse_involutive. }
  split; [|split].
  - exists l, (reverse r). split; [by rewrite <- Hmid|]. split; [done|].
    rewrite Forall_forall in Hrs |- *. intros c Hc. apply Hrs.
    by apply elem_of_reverse.
  - intros c Hc. apply (str_lstrip_head s). rewrite Hmid.
    destruct (reverse t); [done|]. exact Hc.
  - intros c Hc. rewrite last_reverse in Hc.
    by apply (str_lstrip_head (reverse (str_lstrip s))).
Qed.

Lemma str_strip_whitespace s :
  str_strip s = [] ↔ Forall (λ c, char_isspace c = true) s.
Proof.
  split.
  - intros Hs. destruct (str_strip_trimmed s) as [(l & r & Heq & Hl & Hr) _].
    rewrite Hs in Heq. rewrite Heq. by apply Forall_app.
  - intros Hs. unfold str_strip. by rewrite (str_lstrip_whitespace _ Hs).
Qed.

(** C7: on the new Contact row the address is absent when the payload
    has no address, or one made of whitespace only (one that trims to the
    empty string); any other address is stored without its leading and
    trailing whitespace. *)
Theorem address_is_normalized db env data st r db' :
  place_order db env (Json data) = (Reply st r, db') →
  ∃ c,
    contacts db' = contacts db ++ [c]
    ∧ (py_getitem (contact_info_of data) (py "address") = None →
       ContactInfo.delivery_address c = None)
    ∧ (∀ s,
         py_getitem (contact_info_of data) (py "address") = Some (JStr s) →
         (Forall (λ ch, char_isspace ch = true) s →
          ContactInfo.delivery_address c = None)
         ∧ (str_strip s = [] → ContactInfo.delivery_address c = None)
         ∧ (str_strip s ≠ [] →
            ContactInfo.delivery_address c = Some (str_strip s)
            ∧ trimmed_of s (str_strip s))).
Proof.
  intros Hplace. unfold place_order in Hplace.
  destruct (place_order_data db env data) as [[out db'']|] eqn:Hdata;
    simpl in Hplace; [|discriminate].
  injection Hplace as -> ->.
  apply place_order_data_cases in Hdata
    as [(_ & ? & ? & [=] & _)
       |(ci & address & a & c & o & Hci & Haddress & Hnorm & Hbind & _ & _ & _ & ->)].
  exists c. split; [done|].
  assert (∃ ckvs, contact_info_of data = JObj ckvs
                  ∧ address = default JNull (dict_lookup (py "address") ckvs))
    as (ckvs & Hinfo & ->).
  { unfold contact_info_of. rewrite Hci.
    destruct ci as [| | | | | |ckvs]; try discriminate.
    exists ckvs. by injection Haddress as <-. }
  rewrite Hinfo. unfold py_getitem. split.
  - intros Hnone. rewrite Hnone in Hnorm. injection Hnorm as <-.
    by injection Hbind as <-.
  - intros s Hs. rewrite Hs in Hnorm. simpl in Hnorm.
    assert (ContactInfo.delivery_address c
            = if bool_decide (str_strip s = []) then None
              else Some (str_strip s)) as Hstored.
    { revert Hnorm. unfold normalize_address, py_truthy, py_eq_str, str_eqb.
      simpl. repeat case_bool_decide; simplify_eq/=; intros [= <-];
        simpl in Hbind; rewrite ?sql_text_str in Hbind;
        try (by injection Hbind as <-).
      - rewrite bool_decide_eq_true_2 in Hbind by done. by injection Hbind as <-.
      - rewrite bool_decide_eq_false_2 in Hbind by done. simpl in Hbind.
        rewrite sql_text_str in Hbind. by injection Hbind as <-. }
    split; [|split].
    + intros Hws. apply str_strip_whitespace in Hws.
      by rewrite Hstored, bool_decide_eq_true_2.
    + intros Hempty. by rewrite Hstored, bool_decide_eq_true_2.
    + intros Hne. rewrite Hstored, bool_decide_eq_false_2 by done.
      split; [done|apply str_strip_trimmed].
Qed.

Lemma valid_suffix_iff phone_suffix :
  valid_suffix phone_suffix = true
  ↔ ∃ a b c, phone_suffix = Some [a; b; c]
             ∧ char_isdigit a = true ∧ char_isdigit b = true
             ∧ char_isdigit c = true.
Proof.
  unfold valid_suffix, str_isdigit. split.
  - destruct phone_suffix as [s|]; [|done].
    repeat case_bool_decide; simpl; try done.
    destruct s as [|a [|b [|c [|d s]]]]; try done. simpl.
    rewrite negb_involutive, andb_true_r. intros Hd.
    apply andb_prop in Hd as [Ha Hd]. apply andb_prop in Hd as [Hb Hc].
    by exists a, b, c.
  - intros (a & b & c & -> & Ha & Hb & Hc).
    repeat case_bool_decide; try done. simpl. by rewrite Ha, Hb, Hc.
Qed.

Lemma query_invalid db phone_suffix :
  valid_suffix phone_suffix = false →
  query_order_by_phone db phone_suffix
  = Message 400 (py "請提供正確的 3 位數字手機後三碼進行查詢。").
Proof. intros H. unfold query_order_by_phone. by rewrite H. Qed.

Lemma query_valid_not_invalid db phone_suffix :
  valid_suffix phone_suffix = true →
  ¬ InvalidRequest (query_order_by_phone db phone_suffix).
Proof.
  intros H. unfold query_order_by_phone, InvalidRequest. rewrite H. simpl.
  case_bool_decide; [done|]. by destruct (mapM _ _).
Qed.

(** C4: the query is rejected with InvalidRequest for every suffix that
    is absent, not exactly 3 characters long, or holds a character that
    is not a digit ("12", "12a", "1234"); it passes validation exactly
    for the strings of 3 digits. *)
Theorem phone_suffix_validation db phone_suffix :
  (InvalidRequest (query_order_by_phone db phone_suffix)
   ↔ ¬ ∃ a b c, phone_suffix = Some [a; b; c]
                ∧ char_isdigit a = true ∧ char_isdigit b = true
                ∧ char_isdigit c = true)
  ∧ (∀ s, phone_suffix = Some s → length s ≠ 3%nat →
          InvalidRequest (query_order_by_phone db phone_suffix))
  ∧ (∀ s ch, phone_suffix = Some s → ch ∈ s → char_isdigit ch = false →
             InvalidRequest (query_order_by_phone db phone_suffix))
  ∧ (∀ s, phone_suffix = Some s → Forall (λ ch, 0 ≤ ch < 128) s →
          (¬ InvalidRequest (query_order_by_phone db phone_suffix)
           ↔ length s = 3%nat ∧ Forall (λ ch, 48 ≤ ch ≤ 57) s))
  ∧ InvalidRequest (query_order_by_phone db (Some (py "12")))
  ∧ InvalidRequest (query_order_by_phone db (Some (py "12a")))
  ∧ InvalidRequest (query_order_by_phone db (Some (py "1234")))
  ∧ ¬ InvalidRequest (query_order_by_phone db (Some (py "123"))).
Proof.
  assert (∀ p, InvalidRequest (query_order_by_phone db p)
               ↔ valid_suffix p = false) as Hinv.
  { intros p. destruct (valid_suffix p) eqn:Hp.
    - split; [|done]. intros H. by apply query_valid_not_invalid in H.
    - by rewrite query_invalid. }
  assert (∀ ch, 0 ≤ ch < 128 → char_isdigit ch = true ↔ 48 ≤ ch ≤ 57) as Hascii.
  { intros ch Hch. rewrite (char_isdigit_ascii _ Hch). lia. }
  assert (∀ s, Forall (λ ch, 0 ≤ ch < 128) s →
               valid_suffix (Some s) = true
               ↔ length s = 3%nat ∧ Forall (λ ch, 48 ≤ ch ≤ 57) s) as Hvalid.
  { intros s Hs. rewrite valid_suffix_iff. split.
    - intros (a & b & c & [= ->] & Ha & Hb & Hc).
      inversion_clear Hs as [|? ? Ha' Hs']. inversion_clear Hs' as [|? ? Hb' Hs''].
      inversion_clear Hs'' as [|? ? Hc' _].
      split; [done|]. repeat constructor; by apply Hascii.
    - intros [Hlen Hd]. destruct s as [|a [|b [|c [|d s]]]]; try done.
      inversion_clear Hs as [|? ? Ha' Hs']. inversion_clear Hs' as [|? ? Hb' Hs''].
      inversion_clear Hs'' as [|? ? Hc' _].
      inversion_clear Hd as [|? ? Ha Hd']. inversion_clear Hd' as [|? ? Hb Hd''].
      inversion_clear Hd'' as [|? ? Hc _].
      exists a, b, c. rewrite !Hascii by done. done. }
  split; [|split; [|split; [|split]]].
  - rewrite Hinv, <- valid_suffix_iff. by destruct (valid_suffix phone_suffix).
  - intros s -> Hlen. apply Hinv. apply not_true_is_false.
    intros (a & b & c & [= ->] & _)%valid_suffix_iff. done.
  - intros s ch -> Hin Hch. apply Hinv. apply not_true_is_false.
    intros (a & b & c & [= ->] & Ha & Hb & Hc)%valid_suffix_iff.
    rewrite !elem_of_cons, elem_of_nil in Hin.
    destruct Hin as [->|[->|[->|[]]]]; congruence.
  - intros s -> Hs. rewrite Hinv, <- Hvalid by done.
    apply not_false_iff_true.
  - assert (∀ s, Forall (λ ch, 0 ≤ ch < 128) s →
                 ¬ (length s = 3%nat ∧ Forall (λ ch, 48 ≤ ch ≤ 57) s) →
                 InvalidRequest (query_order_by_phone db (Some s))) as Hbad.
    { intros s Hs Hno. apply Hinv, not_true_is_false.
      intros H. by apply Hvalid in H. }
    repeat match goal with
           | |- context [py ?s] =>
               let v := eval vm_compute in (py s) in change (py s) with v
           end.
    split; [|split; [|split]].
    + apply Hbad; [repeat constructor; lia|]. intros [Hlen _]; simpl in Hlen; lia.
    + apply Hbad; [repeat constructor; lia|]. intros [_ Hd].
      inversion_clear Hd as [|? ? _ Hd'].
      inversion_clear Hd' as [|? ? _ Hd'']. inversion_clear Hd'' as [|? ? Hc _]. lia.
    + apply Hbad; [repeat constructor; lia|]. intros [Hlen _]; simpl in Hlen; lia.
    + rewrite Hinv. apply not_false_iff_true, Hvalid; [repeat constructor; lia|].
      split; [done|]. repeat constructor; lia.
Qed.

Lemma contact_of_is_Some db o c :
  c ∈ contacts db → ContactInfo.id c = Order.contact_id o →
  is_Some (contact_of db o).
Proof.
  intros Hc Hid. unfold contact_of.
  destruct (filter _ (contacts db)) as [|c' l] eqn:Hfilter; [|by eexists].
  assert (c ∈ filter (λ c, ContactInfo.id c = Order.contact_id o) (contacts db))
    as Hin by by apply list_elem_of_filter.
  rewrite Hfilter in Hin. by apply elem_of_nil in Hin.
Qed.

Lemma mapM_total {A B} (f : A → option B) l :
  (∀ x, x ∈ l → is_Some (f x)) →
  ∃ k, mapM f l = Some k ∧ Forall2 (λ x y, f x = Some y) l k.
Proof.
  intros Hall.
  destruct (mapM_is_Some_2 f l) as [k Hk].
  { apply Forall_forall. intros x Hx. by apply Hall. }
  exists k. split; [done|]. by apply mapM_Some_1.
Qed.

(** C3: for a valid suffix the contacts matched are those whose phone
    equals the suffix; without any the query fails with NotFound;
    otherwise it returns the orders whose contact_id is the id of a
    matched contact, most recent created_at first. *)
Theorem query_matches_exact_phone db suffix :
  valid_suffix (Some suffix) = true →
  (∀ c, c ∈ matching_contacts db suffix
        ↔ c ∈ contacts db ∧ ContactInfo.contact_phone c = suffix)
  ∧ (matching_contacts db suffix = [] →
     query_order_by_phone db (Some suffix)
     = Message 404 (py "查無訂單，請確認手機後三碼是否正確。")
     ∧ NotFound (query_order_by_phone db (Some suffix)))
  ∧ (matching_contacts db suffix ≠ [] →
     ∃ found results,
       query_order_by_phone db (Some suffix) = Reply 200 results
       ∧ found ≡ₚ filter (λ o, Order.contact_id o
                                ∈ ContactInfo.id <$> matching_contacts db suffix)
                    (orders db)
       ∧ descending Order.created_at found
       ∧ Forall2 (λ o r, query_entry db o = Some r) found results
       ∧ result_order_id <$> results = Order.order_id <$> found).
Proof.
  intros Hvalid. split; [|split].
  - intros c. unfold matching_contacts. rewrite list_elem_of_filter. tauto.
  - intros Hnone. unfold query_order_by_phone, NotFound.
    rewrite Hvalid. simpl. rewrite Hnone. done.
  - intros Hsome. unfold query_order_by_phone.
    rewrite Hvalid. simpl.
    rewrite bool_decide_eq_false_2 by done.
    set (ids := ContactInfo.id <$> matching_contacts db suffix).
    destruct (mapM_total (query_entry db) (orders_of_contacts db ids))
      as (results & Hmap & Hall).
    { intros o Ho. unfold orders_of_contacts in Ho.
      rewrite order_by_desc_perm in Ho.
      apply list_elem_of_filter in Ho as [Hid _].
      apply list_elem_of_fmap in Hid as (c & Hid & Hc).
      apply list_elem_of_filter in Hc as [_ Hc].
      unfold query_entry.
      destruct (contact_of_is_Some db o c Hc (eq_sym Hid)) as [c' ->].
      by eexists. }
    rewrite Hmap. exists (orders_of_contacts db ids), results.
    split; [done|]. split; [apply order_by_desc_perm|].
    split; [apply order_by_desc_sorted|]. split; [done|].
    clear -Hall. induction Hall as [|o r os rs Hr _ IH]; [done|].
    cbn. rewrite IH. f_equal. unfold query_entry in Hr.
    destruct (contact_of db o); [|done]. by injection Hr as <-.
Qed.

(** C5: the listing answers with the orders by surrogate id, largest
    first, and the stored items never make it fail: an order whose items
    blob does not deserialize gets the fixed marker as its content, and
    all the others are still listed. *)
Theorem get_all_orders_survives_bad_items db :
  (∀ o, o ∈ orders db → is_Some (contact_of db o)) →
  ∃ listed summaries,
    get_all_orders db = Reply 200 summaries
    ∧ listed ≡ₚ orders db
    ∧ descending Order.id listed
    ∧ Forall2 (λ o r,
                 summary_order_id r = Order.id o
                 ∧ summary_content r = all_orders_content (Order.items_json o)
                 ∧ (json_loads (Order.items_json o) = None →
                    summary_content r = unparseable))
        listed summaries.
Proof.
  intros Hcontacts. unfold get_all_orders.
  destruct (mapM_total (all_orders_entry db) (order_by_desc Order.id (orders db)))
    as (summaries & Hmap & Hall).
  { intros o Ho. rewrite order_by_desc_perm in Ho.
    unfold all_orders_entry. destruct (Hcontacts o Ho) as [c ->]. by eexists. }
  rewrite Hmap. exists (order_by_desc Order.id (orders db)), summaries.
  split; [done|]. split; [apply order_by_desc_perm|].
  split; [apply order_by_desc_sorted|].
  eapply Forall2_impl; [exact Hall|]. intros o r Hr. cbv beta in Hr.
  unfold all_orders_entry in Hr. destruct (contact_of db o); [|done].
  injection Hr as <-. cbn. split; [done|]. split; [done|].
  intros Hloads. unfold all_orders_content. by rewrite Hloads.
Qed.

Lemma mapM_one {A B} (f : A → option B) x :
  mapM f [x] = y ← f x; Some [y].
Proof. simpl. by destruct (f x). Qed.

(** C9: in both listings a line item without a quantity is shown with
    quantity 1 and a line item without a name with a fixed placeholder
    name, one per listing; in the amount a missing quantity counts as 0,
    so that the item adds nothing. *)
Theorem missing_quantity_displays_as_one kvs :
  (dict_lookup (py "quantity") kvs = None →
   query_line (JObj kvs)
   = Some (py_str (default (JStr (py "飲品")) (dict_lookup (py "name") kvs))
           ++ py " x 1")
   ∧ (∀ options,
        default (JStr []) (dict_lookup (py "options") kvs) = JStr options →
        all_orders_line (JObj kvs)
        = Some (py_str (default (JStr (py "未知飲品"))
                          (dict_lookup (py "name") kvs))
                ++ py " (" ++ str_split_first (py " / ") options
                ++ py ") x 1"))
   ∧ (∀ blob, json_loads blob = Some (JArr [JObj kvs]) →
              query_content blob
              = py_str (default (JStr (py "飲品"))
                          (dict_lookup (py "name") kvs)) ++ py " x 1")
   ∧ (int_field kvs (py "price") = true →
      ∀ total rest,
        sum_cart (NInt total) (JObj kvs :: rest) = sum_cart (NInt total) rest))
  ∧ (dict_lookup (py "name") kvs = None →
     query_line (JObj kvs)
     = Some (py "飲品" ++ py " x "
             ++ py_str (default (JInt 1) (dict_lookup (py "quantity") kvs)))
     ∧ (∀ options,
          default (JStr []) (dict_lookup (py "options") kvs) = JStr options →
          all_orders_line (JObj kvs)
          = Some (py "未知飲品" ++ py " (" ++ str_split_first (py " / ") options
                  ++ py ") x "
                  ++ py_str (default (JInt 1)
                               (dict_lookup (py "quantity") kvs))))).
Proof.
  split.
  - intros Hq.
    assert (query_line (JObj kvs)
            = Some (py_str (default (JStr (py "飲品"))
                              (dict_lookup (py "name") kvs)) ++ py " x 1"))
      as Hline.
    { unfold query_line. simpl. rewrite Hq. simpl. by rewrite py_str_int. }
    split; [exact Hline|]. split; [|split].
    + intros options Hopt. unfold all_orders_line. simpl.
      rewrite Hopt, Hq. simpl. rewrite py_str_int. by do 2 f_equal.
    + intros blob Hblob. unfold query_content. rewrite Hblob.
      cbn [mbind option_bind py_iter]. rewrite mapM_one, Hline. done.
    + intros Hprice total rest. cbn [sum_cart].
      rewrite (py_get_int_field _ _ Hprice). simpl. rewrite Hq. simpl.
      by rewrite Z.mul_0_r, Z.add_0_r.
  - intros Hn. split.
    + unfold query_line. simpl. rewrite Hn. simpl. by rewrite py_str_str.
    + intros options Hopt. unfold all_orders_line. simpl.
      rewrite Hopt, Hn. simpl. by rewrite py_str_str.
Qed.
End properties.

(** ** Further properties of the handlers *)

Section store_properties.
Context {fl : PyFloat} {rt : PyRuntime}.

Lemma place_order_data_reply db env data st r db' :
  place_order_data db env data = Some (Reply st r, db') →
  ∃ c o,
    db' = Database (contacts db ++ [c]) (orders db ++ [o])
    ∧ st = 201
    ∧ ContactInfo.id c = next_rowid (ContactInfo.id <$> contacts db)
    ∧ Order.id o = next_rowid (Order.id <$> orders db)
    ∧ Order.order_id o = new_order_id db
    ∧ Order.contact_id o = ContactInfo.id c
    ∧ Order.status o = py "pending"
    ∧ Order.created_at o = now env
    ∧ receipt_order_id r = Order.order_id o
    ∧ receipt_final_amount r = Order.final_amount o.
Proof.
  unfold place_order_data. intros H.
  apply bind_Some in H as (has_cart & _ & H).
  apply bind_Some in H as (has_contact & _ & H).
  destruct (negb (has_cart && has_contact)); [discriminate|].
  apply bind_Some in H as (final_amount & _ & H).
  apply bind_Some in H as (contact_info & _ & H).
  apply bind_Some in H as (contact_name & _ & H).
  apply bind_Some in H as (contact_phone & _ & H).
  apply bind_Some in H as (address & _ & H).
  apply bind_Some in H as (pickup_type & _ & H).
  apply bind_Some in H as (a & _ & H).
  apply bind_Some in H as (c & Hflush & H).
  apply bind_Some in H as (cart & _ & H).
  destruct (commit_fails env || negb (order_id_free db (new_order_id db)));
    [discriminate|].
  injection H as <- <- <-.
  unfold flush_contact in Hflush. destruct (flush_fails env); [done|].
  apply bind_Some in Hflush as (name & _ & Hflush).
  apply bind_Some in Hflush as (phone & _ & Hflush).
  apply bind_Some in Hflush as (addr & _ & Hflush).
  apply bind_Some in Hflush as (pickup & _ & Hflush).
  injection Hflush as <-.
  eexists _, _. repeat split; reflexivity.
Qed.

Lemma place_order_outcomes db env body :
  (∃ r c o,
     place_order db env body
     = (Reply 201 r, Database (contacts db ++ [c]) (orders db ++ [o]))
     ∧ ContactInfo.id c = next_rowid (ContactInfo.id <$> contacts db)
     ∧ Order.id o = next_rowid (Order.id <$> orders db)
     ∧ Order.order_id o = new_order_id db
     ∧ Order.contact_id o = ContactInfo.id c
     ∧ Order.status o = py "pending"
     ∧ Order.created_at o = now env
     ∧ receipt_order_id r = Order.order_id o
     ∧ receipt_final_amount r = Order.final_amount o)
  ∨ ((place_order db env body).2 = db
     ∧ (∀ st r, (place_order db env body).1 ≠ Reply st r)
     ∧ (status_code (place_order db env body).1 = 400
        ∨ status_code (place_order db env body).1 = 500)).
Proof.
  destruct body as [| |data]; simpl; eauto 6.
  destruct (place_order_data db env data) as [[out db']|] eqn:H; simpl; eauto 6.
  destruct out as [st r|st msg| |].
  - apply place_order_data_reply in H
      as (c & o & -> & -> & ?). left. by exists r, c, o.
  - apply place_order_data_cases in H
      as [(-> & st' & msg' & [= -> ->] & Hst)|(? & ? & ? & ? & ? & H)]; [by right|].
    destruct H as (_ & _ & _ & _ & _ & _ & [=] & _).
  - apply place_order_data_cases in H
      as [(_ & ? & ? & [=] & _)|(? & ? & ? & ? & ? & H)].
    destruct H as (_ & _ & _ & _ & _ & _ & [=] & _).
  - apply place_order_data_cases in H
      as [(_ & ? & ? & [=] & _)|(? & ? & ? & ? & ? & H)].
    destruct H as (_ & _ & _ & _ & _ & _ & [=] & _).
Qed.

(** X1: placing an order is all or nothing.  Either the answer is 201 and
    the store gains exactly one contact row and one order row, the order
    pending, stamped with the current time, carrying the number and the
    amount of the reply and referring to the new contact; or the answer is
    400 or 500 and the store is what it was. *)
Theorem place_order_all_or_nothing db env body :
  (∃ r c o,
     place_order db env body
     = (Reply 201 r, Database (contacts db ++ [c]) (orders db ++ [o]))
     ∧ Order.contact_id o = ContactInfo.id c
     ∧ Order.status o = py "pending"
     ∧ Order.created_at o = now env
     ∧ Order.order_id o = receipt_order_id r
     ∧ Order.final_amount o = receipt_final_amount r)
  ∨ ((place_order db env body).2 = db
     ∧ (status_code (place_order db env body).1 = 400
        ∨ status_code (place_order db env body).1 = 500)).
Proof.
  destruct (place_order_outcomes db env body)
    as [(r & c & o & H & _ & _ & _ & Hc & Hs & Ht & Hn & Ha)|(H & _ & Hst)];
    [|by right].
  left. exists r, c, o. by rewrite Hn, Ha.
Qed.

Lemma next_rowid_above ids x : x ∈ ids → x < next_rowid ids.
Proof.
  intros Hx. destruct ids as [|i rest]; [by apply elem_of_nil in Hx|].
  cbn [next_rowid]. pose proof (foldr_max_upper i rest x Hx). lia.
Qed.

Lemma next_rowid_snoc ids :
  next_rowid (ids ++ [next_rowid ids]) = next_rowid ids + 1.
Proof.
  destruct ids as [|i rest]; [done|].
  cbn [app next_rowid]. f_equal.
  set (x := foldr Z.max i rest + 1).
  pose proof (foldr_max_member i (rest ++ [x])) as Hmem.
  pose proof (foldr_max_upper i (rest ++ [x]) x) as Hx.
  rewrite app_comm_cons in Hmem, Hx.
  apply elem_of_app in Hmem as [Hmem|Hmem].
  - apply foldr_max_upper in Hmem.
    assert (x ∈ (i :: rest) ++ [x]) as Hin by (apply elem_of_app; right; left).
    specialize (Hx Hin). lia.
  - by apply list_elem_of_singleton in Hmem.
Qed.

Lemma next_rowid_seqZ n : next_rowid (seqZ 1 (Z.of_nat n)) = 1 + Z.of_nat n.
Proof.
  induction n as [|n IH]; [done|].
  rewrite seqZ_S, <- IH, next_rowid_snoc, IH. lia.
Qed.

Lemma spec_next_order_number_seqZ n :
  spec_next_order_number (seqZ 1001 (Z.of_nat n)) = 1001 + Z.of_nat n.
Proof.
  induction n as [|n IH]; [done|].
  rewrite seqZ_S, <- IH, spec_next_order_number_snoc, IH. lia.
Qed.

Lemma place_order_keeps_consistent db env body :
  consistent db → consistent (place_order db env body).2.
Proof.
  intros [Hpk Hcpk Hnum Hfk].
  destruct (place_order_outcomes db env body)
    as [(r & c & o & -> & Hc & Ho & Hn & Hlink & _)|[-> _]]; [|done].
  cbn [snd]. split; cbn [orders contacts]; rewrite ?fmap_app; cbn [fmap list_fmap].
  - apply NoDup_app. split; [done|]. split; [|apply NoDup_singleton].
    intros x Hx Hx'%list_elem_of_singleton. apply next_rowid_above in Hx. lia.
  - apply NoDup_app. split; [done|]. split; [|apply NoDup_singleton].
    intros x Hx Hx'%list_elem_of_singleton. apply next_rowid_above in Hx. lia.
  - apply NoDup_app. split; [done|]. split; [|apply NoDup_singleton].
    intros x Hx Hx'%list_elem_of_singleton.
    apply list_elem_of_fmap in Hx as (o' & -> & Ho').
    apply new_order_id_above in Ho'. lia.
  - intros o' [Ho'|Ho'%list_elem_of_singleton]%elem_of_app; apply elem_of_app.
    + left. by apply Hfk.
    + right. subst o'. rewrite Hlink. left.
Qed.

Lemma clear_all_orders_keeps_consistent db env :
  consistent db → consistent (clear_all_orders db env).2.
Proof.
  intros H. unfold clear_all_orders. destruct (commit_fails env); [done|].
  split; cbn; try apply NoDup_nil_2. intros o Ho. by apply elem_of_nil in Ho.
Qed.

(** X2: the handlers keep the store consistent: after any order placement
    and after any clearing, successful or not, row ids and order numbers
    are still unique and every order still refers to a contact row. *)
Theorem handlers_keep_consistency db request :
  consistent db → consistent (serve db request).
Proof.
  intros H. destruct request as [env body|env]; simpl.
  - by apply place_order_keeps_consistent.
  - by apply clear_all_orders_keeps_consistent.
Qed.

Lemma densely_numbered_empty : densely_numbered (Database [] []).
Proof. by repeat split. Qed.

Lemma place_order_keeps_dense db env body :
  densely_numbered db → densely_numbered (place_order db env body).2.
Proof.
  intros (Hid & Hnum & Hfk & Hcid).
  destruct (place_order_outcomes db env body)
    as [(r & c & o & -> & Hc & Ho & Hn & Hlink & _)|[-> _]]; [|done].
  cbn zeta in *. set (n := length (orders db)) in *.
  assert (ContactInfo.id c = 1 + Z.of_nat n) as Hc'
    by by rewrite Hc, Hcid, next_rowid_seqZ.
  assert (Order.id o = 1 + Z.of_nat n) as Ho'
    by by rewrite Ho, Hid, next_rowid_seqZ.
  assert (Order.order_id o = 1001 + Z.of_nat n) as Hn'
    by by rewrite Hn, new_order_id_spec, Hnum, spec_next_order_number_seqZ.
  unfold densely_numbered. cbn [snd orders contacts].
  rewrite length_app, !fmap_app. cbn [length fmap list_fmap]. fold n.
  replace (n + 1)%nat with (S n) by lia. rewrite !seqZ_S.
  by rewrite Hid, Hnum, Hfk, Hcid, Hlink, Hc', Ho', Hn'.
Qed.

Lemma clear_all_orders_keeps_dense db env :
  densely_numbered db → densely_numbered (clear_all_orders db env).2.
Proof.
  intros H. unfold clear_all_orders. destruct (commit_fails env); [done|].
  apply densely_numbered_empty.
Qed.

Lemma serve_all_dense requests :
  densely_numbered (serve_all (Database [] []) requests).
Proof.
  unfold serve_all. induction requests as [|request requests IH] using rev_ind.
  - apply densely_numbered_empty.
  - rewrite foldl_snoc. destruct request as [env body|env]; simpl.
    + by apply place_order_keeps_dense.
    + by apply clear_all_orders_keeps_dense.
Qed.

Lemma densely_numbered_consistent db : densely_numbered db → consistent db.
Proof.
  intros (Hid & Hnum & Hfk & Hcid). split.
  - rewrite Hid. apply NoDup_seqZ.
  - rewrite Hcid. apply NoDup_seqZ.
  - rewrite Hnum. apply NoDup_seqZ.
  - intros o Ho. rewrite Hcid, <- Hfk. by apply list_elem_of_fmap_2.
Qed.

Lemma Sorted_le_seqZ m n : Sorted Z.le (seqZ m (Z.of_nat n)).
Proof.
  revert m. induction n as [|n IH]; intros m; [constructor|].
  rewrite seqZ_cons by lia. rewrite Nat2Z.inj_succ, Z.pred_succ.
  constructor; [apply IH|].
  destruct n as [|n]; [constructor|].
  rewrite seqZ_cons by lia. constructor. lia.
Qed.

#[local] Instance flip_le_antisymm : AntiSymm eq (flip Z.le).
Proof. intros x y. unfold flip. lia. Qed.

#[local] Instance flip_le_trans : Transitive (flip Z.le).
Proof. intros x y z. unfold flip. lia. Qed.

Lemma get_all_orders_consistent db :
  consistent db →
  ∃ summaries,
    get_all_orders db = Reply 200 summaries
    ∧ Forall2 (λ o r, all_orders_entry db o = Some r)
        (order_by_desc Order.id (orders db)) summaries.
Proof.
  intros [_ _ _ Hfk]. unfold get_all_orders.
  destruct (mapM_total (all_orders_entry db) (order_by_desc Order.id (orders db)))
    as (summaries & Hmap & Hall).
  { intros o Ho. rewrite order_by_desc_perm in Ho. unfold all_orders_entry.
    apply Hfk, list_elem_of_fmap in Ho as (c & Hid & Hc).
    destruct (contact_of_is_Some db o c Hc (eq_sym Hid)) as [c' ->]. by eexists. }
  rewrite Hmap. by exists summaries.
Qed.

Lemma all_orders_entry_id db o r :
  all_orders_entry db o = Some r → summary_order_id r = Order.id o.
Proof.
  unfold all_orders_entry. destruct (contact_of db o); [|done]. by intros [= <-].
Qed.

(** X3: in every store reached from the empty one through order
    placements and clearings, whatever their payloads and faults, rows are
    numbered densely (order k has id k, number 1000 + k and contact k), the
    two tables have the same number of rows, and the listing answers 200
    with the ids n, n-1, ..., 1. *)
Theorem reachable_stores_are_dense requests :
  let db := serve_all (Database [] []) requests in
  let n := Z.of_nat (length (orders db)) in
  densely_numbered db
  ∧ consistent db
  ∧ length (contacts db) = length (orders db)
  ∧ ∃ summaries,
      get_all_orders db = Reply 200 summaries
      ∧ summary_order_id <$> summaries = reverse (seqZ 1 n).
Proof.
  intros db n. pose proof (serve_all_dense requests) as Hdense. fold db in Hdense.
  pose proof (densely_numbered_consistent _ Hdense) as Hcons.
  split; [done|]. split; [done|]. split.
  - destruct Hdense as (Hid & _ & _ & Hcid).
    apply (f_equal length) in Hcid.
    rewrite length_fmap, length_seqZ in Hcid. lia.
  - destruct (get_all_orders_consistent db Hcons) as (summaries & Hlist & Hall).
    exists summaries. split; [done|].
    assert (summary_order_id <$> summaries
            = Order.id <$> order_by_desc Order.id (orders db)) as ->.
    { clear -Hall. induction Hall as [|o r os rs Hr _ IH]; [done|].
      cbn. by rewrite IH, (all_orders_entry_id _ _ _ Hr). }
    apply (Sorted_unique (flip Z.le)).
    + eapply Sorted_fmap; [|apply order_by_desc_sorted]. by intros x y.
    + apply Sorted_reverse, Sorted_le_seqZ.
    + rewrite order_by_desc_perm, reverse_Permutation.
      destruct Hdense as (-> & _). done.
Qed.

Lemma query_entries_total db contact_ids :
  (∀ i, i ∈ contact_ids → i ∈ ContactInfo.id <$> contacts db) →
  ∃ results,
    mapM (query_entry db) (orders_of_contacts db contact_ids) = Some results
    ∧ Forall2 (λ o r, query_entry db o = Some r)
        (orders_of_contacts db contact_ids) results.
Proof.
  intros Hids. apply mapM_total. intros o Ho.
  unfold orders_of_contacts in Ho. rewrite order_by_desc_perm in Ho.
  apply list_elem_of_filter in Ho as [Hid _].
  apply Hids, list_elem_of_fmap in Hid as (c & Hid & Hc).
  unfold query_entry.
  destruct (contact_of_is_Some db o c Hc (eq_sym Hid)) as [c' ->]. by eexists.
Qed.

Lemma matching_contacts_ids db phone i :
  i ∈ ContactInfo.id <$> matching_contacts db phone →
  i ∈ ContactInfo.id <$> contacts db.
Proof.
  intros (c & -> & Hc)%list_elem_of_fmap.
  apply list_elem_of_filter in Hc as [_ Hc]. by apply list_elem_of_fmap_2.
Qed.

Lemma query_valid_cases db phone :
  valid_suffix (Some phone) = true →
  (matching_contacts db phone = []
   ∧ query_order_by_phone db (Some phone)
     = Message 404 (py "查無訂單，請確認手機後三碼是否正確。"))
  ∨ (matching_contacts db phone ≠ []
     ∧ ∃ results,
         query_order_by_phone db (Some phone) = Reply 200 results
         ∧ Forall2 (λ o r, query_entry db o = Some r)
             (orders_of_contacts db
                (ContactInfo.id <$> matching_contacts db phone)) results).
Proof.
  intros Hvalid. unfold query_order_by_phone. rewrite Hvalid. simpl.
  case_bool_decide as Hnone; [by left|]. right. split; [done|].
  destruct (query_entries_total db
              (ContactInfo.id <$> matching_contacts db phone))
    as (results & -> & Hall); [apply matching_contacts_ids|].
  by exists results.
Qed.

(** X4: the query by phone suffix never raises: for every store, also an
    inconsistent one, and every input it answers 200 with a list, 400 or
    404. *)
Theorem query_never_raises db phone_suffix :
  (∃ results, query_order_by_phone db phone_suffix = Reply 200 results)
  ∨ (∃ message, query_order_by_phone db phone_suffix = Message 400 message)
  ∨ (∃ message, query_order_by_phone db phone_suffix = Message 404 message).
Proof.
  destruct (valid_suffix phone_suffix) eqn:Hvalid.
  - destruct phone_suffix as [phone|]; [|done].
    destruct (query_valid_cases db phone Hvalid)
      as [[_ ->]|(_ & results & -> & _)]; eauto.
  - rewrite (query_invalid _ _ Hvalid). eauto.
Qed.

Lemma all_orders_entry_fields db o r :
  all_orders_entry db o = Some r →
  summary_order_id r = Order.id o
  ∧ summary_final_amount r = Order.final_amount o
  ∧ summary_status r = Order.status o
  ∧ summary_content r = all_orders_content (Order.items_json o).
Proof.
  unfold all_orders_entry. destruct (contact_of db o); [|done]. by intros [= <-].
Qed.

(** X5: the order just placed heads the listing.  On a consistent store
    whose row ids are all below 2^63 - 1, where SQLite gives a new row the
    largest id plus one, a successful placement makes the new order the
    first summary: its id is above every id the table had, it is pending
    and has the amount of the reply, and the listing is one longer than the
    table was. *)
Theorem newest_order_is_listed_first db env body st r db' :
  consistent db →
  Forall (λ i, i < 2 ^ 63 - 1) (Order.id <$> orders db) →
  Forall (λ i, i < 2 ^ 63 - 1) (ContactInfo.id <$> contacts db) →
  place_order db env body = (Reply st r, db') →
  ∃ newest older,
    get_all_orders db' = Reply 200 (newest :: older)
    ∧ summary_order_id newest = next_rowid (Order.id <$> orders db)
    ∧ (∀ o, o ∈ orders db → Order.id o < summary_order_id newest)
    ∧ summary_final_amount newest = receipt_final_amount r
    ∧ summary_status newest = py "pending"
    ∧ length older = length (orders db).
Proof.
  intros Hcons _ _ Hplace.
  pose proof (place_order_keeps_consistent db env body Hcons) as Hcons'.
  destruct (place_order_outcomes db env body)
    as [(r' & c & o & H & _ & Ho & _ & _ & Hstatus & _ & _ & Hamount)
       |(_ & H & _)];
    rewrite Hplace in *; [|by destruct (H st r)].
  injection H as _ -> ->. cbn [snd] in Hcons'.
  destruct (get_all_orders_consistent _ Hcons') as (summaries & Hlist & Hall).
  cbn [orders] in Hall.
  pose proof (order_by_desc_perm Order.id (orders db ++ [o])) as Hperm.
  destruct (order_by_desc Order.id (orders db ++ [o])) as [|x rest] eqn:Hsorted.
  { apply Permutation_nil_l in Hperm. by destruct (orders db). }
  assert (x = o) as ->.
  { destruct (first_order_by_desc_Some Order.id (orders db ++ [o]) x)
      as [Hx Hmax]; [by rewrite Hsorted|].
    apply elem_of_app in Hx as [Hx|Hx%list_elem_of_singleton]; [|done].
    apply (list_elem_of_fmap_2 Order.id), next_rowid_above in Hx.
    assert (o ∈ orders db ++ [o]) as Hin by (apply elem_of_app; right; left).
    specialize (Hmax o Hin). lia. }
  apply Forall2_cons_inv_l in Hall as (newest & older & Hnewest & Holder & ->).
  apply all_orders_entry_fields in Hnewest as (Hid & Ham & Hst & _).
  exists newest, older. split; [done|].
  rewrite Hid, Ham, Hst, Ho, Hstatus, Hamount. split; [done|]. split.
  { intros o' Ho'. by apply next_rowid_above, list_elem_of_fmap_2. }
  repeat split.
  apply Forall2_length in Holder. rewrite <- Holder.
  apply Permutation_length in Hperm. rewrite length_app in Hperm.
  simpl in Hperm. lia.
Qed.

Lemma contact_of_new db c o :
  ContactInfo.id c = next_rowid (ContactInfo.id <$> contacts db) →
  Order.contact_id o = ContactInfo.id c →
  contact_of (Database (contacts db ++ [c]) (orders db ++ [o])) o = Some c.
Proof.
  intros Hc Ho. unfold contact_of. cbn [contacts]. rewrite filter_app.
  assert (filter (λ c', ContactInfo.id c' = Order.contact_id o) (contacts db)
          = []) as ->.
  { destruct (filter _ (contacts db)) as [|c' l] eqn:Hfilter; [done|].
    assert (c' ∈ filter (λ c', ContactInfo.id c' = Order.contact_id o)
                   (contacts db)) as Hin by (rewrite Hfilter; left).
    apply list_elem_of_filter in Hin as [Hid Hin].
    apply (list_elem_of_fmap_2 ContactInfo.id), next_rowid_above in Hin. lia. }
  rewrite filter_cons_True by done. done.
Qed.

Lemma Forall2_elem_of_l {A B} (P : A → B → Prop) l k x :
  Forall2 P l k → x ∈ l → ∃ y, y ∈ k ∧ P x y.
Proof.
  induction 1 as [|a b l k Hab _ IH]; intros Hx; [by apply elem_of_nil in Hx|].
  apply elem_of_cons in Hx as [->|Hx].
  - exists b. split; [left|done].
  - destruct (IH Hx) as (y & Hy & HP). exists y. split; [by right|done].
Qed.

(** X6: an order can be looked up by the phone it was placed with.  When a
    well-formed payload whose phone is a string of 3 digits is placed on
    any store, the query by that phone answers 200 with an entry that has
    the number and the amount of the reply, the normalized address, the
    pickup type, and the content built from the stored cart; when the cart
    survives the round trip through json.dumps and json.loads that content
    is its lines joined by a comma. *)
Theorem placed_order_is_found_by_phone db env data phone :
  well_formed_payload data = true →
  healthy env = true →
  py_getitem (contact_info_of data) (py "phone") = Some (JStr phone) →
  valid_suffix (Some phone) = true →
  ∃ r db' results entry,
    place_order db env (Json data) = (Reply 201 r, db')
    ∧ query_order_by_phone db' (Some phone) = Reply 200 results
    ∧ entry ∈ results
    ∧ result_order_id entry = receipt_order_id r
    ∧ result_final_amount entry = receipt_final_amount r
    ∧ result_address entry = spec_address (contact_info_of data)
    ∧ result_pickup_type entry = text_or (py "pickup") data (py "pickupType")
    ∧ (json_loads (json_dumps (JArr (cart_of data))) = Some (JArr (cart_of data)) →
       ∀ lines, mapM query_line (cart_of data) = Some lines →
                result_content entry = str_join (py ", ") lines).
Proof.
  intros Hwf Henv Hphone Hvalid.
  rewrite (place_order_well_formed _ _ _ Hwf Henv).
  set (c := spec_contact db data). set (o := spec_order db env data).
  set (db' := Database (contacts db ++ [c]) (orders db ++ [o])).
  assert (c ∈ matching_contacts db' phone) as Hmatch.
  { unfold matching_contacts. apply list_elem_of_filter. split.
    - unfold c, spec_contact, text_or. cbn. by rewrite Hphone.
    - cbn. apply elem_of_app. right. left. }
  destruct (query_valid_cases db' phone Hvalid)
    as [[Hnone _]|(_ & results & Hquery & Hall)].
  { rewrite Hnone in Hmatch. by apply elem_of_nil in Hmatch. }
  assert (o ∈ orders_of_contacts db'
                (ContactInfo.id <$> matching_contacts db' phone)) as Ho.
  { unfold orders_of_contacts. rewrite order_by_desc_perm.
    apply list_elem_of_filter. split.
    - by apply (list_elem_of_fmap_2 ContactInfo.id) in Hmatch.
    - cbn. apply elem_of_app. right. left. }
  destruct (Forall2_elem_of_l _ _ _ _ Hall Ho) as (entry & Hentry & Hbuilt).
  eexists _, db', results, entry. split; [done|]. split; [done|]. split; [done|].
  unfold query_entry in Hbuilt. unfold db' in Hbuilt.
  rewrite (contact_of_new db c o) in Hbuilt by done.
  injection Hbuilt as <-. cbn.
  repeat split.
  intros Hround lines Hlines. unfold query_content. rewrite Hround.
  cbn [mbind option_bind py_iter]. by rewrite Hlines.
Qed.

(** X7: clearing forgets everything: after a clearing that commits, and
    whatever the store held, the listing is empty and every query by a
    valid suffix answers NotFound. *)
Theorem cleared_store_answers_nothing db env :
  commit_fails env = false →
  get_all_orders (clear_all_orders db env).2 = Reply 200 []
  ∧ ∀ phone, valid_suffix (Some phone) = true →
             NotFound (query_order_by_phone (clear_all_orders db env).2
                         (Some phone)).
Proof.
  intros Hcommit. unfold clear_all_orders. rewrite Hcommit. cbn [snd].
  split; [done|]. intros phone Hvalid.
  destruct (query_valid_cases (Database [] []) phone Hvalid)
    as [[_ ->]|(Hsome & _)]; [done|]. by destruct Hsome.
Qed.

Lemma sum_cart_bad_item items total :
  Exists (λ item, bad_item item = true) items → sum_cart total items = None.
Proof.
  intros Hbad. revert total.
  induction Hbad as [item items Hitem|item items _ IH]; intros total.
  - cbn [sum_cart]. destruct item as [| | | | | |kvs]; try done.
    cbn [py_get mbind option_bind]. unfold py_mul_num, bad_item, is_number in *.
    destruct (as_num (default (JInt 0) (dict_lookup (py "price") kvs)));
      [|done].
    destruct (as_num (default (JInt 0) (dict_lookup (py "quantity") kvs)));
      done.
  - cbn [sum_cart].
    destruct (py_get item (py "price") (JInt 0)); [|done]. cbn [mbind option_bind].
    destruct (py_get item (py "quantity") (JInt 0)); [|done].
    cbn [mbind option_bind].
    destruct (py_mul_num _ _); [|done]. cbn [mbind option_bind].
    destruct (num_add _ _); [|done]. apply IH.
Qed.

Lemma has_both_keys_inv data :
  has_both_keys data = true →
  ∃ kvs cart contact_info,
    data = JObj kvs
    ∧ dict_lookup (py "cartItems") kvs = Some cart
    ∧ dict_lookup (py "contactInfo") kvs = Some contact_info.
Proof.
  destruct data as [| | | | | |kvs]; try done. simpl.
  intros [H1 H2]%andb_prop.
  apply bool_decide_eq_true in H1 as [cart H1].
  apply bool_decide_eq_true in H2 as [ci H2]. eauto 6.
Qed.

Lemma place_order_without_amount db env data :
  has_both_keys data = true →
  compute_final_amount data = None →
  place_order db env (Json data) = (Unhandled, db).
Proof.
  intros (kvs & cart & ci & -> & Hcart & Hci)%has_both_keys_inv Hnone.
  unfold place_order, place_order_data.
  rewrite (py_contains_key _ _ _ Hcart). cbn [mbind option_bind].
  rewrite (py_contains_key _ _ _ Hci). cbn [mbind option_bind andb negb].
  by rewrite Hnone.
Qed.

(** X8: there is no item-level validation.  A cart item that is not a
    mapping, or whose price or quantity is present and not a number (a
    string such as "60", null, a list), makes the handler raise: the answer
    is 500, not 400, and nothing is stored, wherever the item stands in the
    cart. *)
Theorem bad_cart_item_is_unhandled db env data items :
  has_both_keys data = true →
  py_getitem data (py "cartItems") = Some (JArr items) →
  Exists (λ item, bad_item item = true) items →
  place_order db env (Json data) = (Unhandled, db).
Proof.
  intros Hkeys Hcart Hbad. apply place_order_without_amount; [done|].
  unfold compute_final_amount. rewrite Hcart. cbn [mbind option_bind py_iter].
  by rewrite (sum_cart_bad_item _ _ Hbad).
Qed.

Lemma place_order_with_amount db env kvs cart amount :
  dict_lookup (py "cartItems") kvs = Some cart →
  well_formed_contact_part (JObj kvs) = true →
  healthy env = true →
  compute_final_amount (JObj kvs) = Some amount →
  place_order db env (Json (JObj kvs))
  = (Reply 201
       (Receipt (py "Order placed successfully!")
          (spec_next_order_number (Order.order_id <$> orders db))
          (float_column amount)
          (py "Time calculation removed for simplicity, or use calculated time here")),
     Database (contacts db ++ [spec_contact db (JObj kvs)])
       (orders db
        ++ [Order.mk (next_rowid (Order.id <$> orders db))
              (spec_next_order_number (Order.order_id <$> orders db))
              (py "pending") (float_column amount) (json_dumps cart) (now env)
              (next_rowid (ContactInfo.id <$> contacts db))])).
Proof.
  intros Hcart Hwf Henv Hamount. simpl in Hwf.
  destruct (dict_lookup (py "contactInfo") kvs) as [contact_info|] eqn:Hci;
    try discriminate.
  apply andb_prop in Hwf as [Hcontact Hpickup].
  destruct contact_info as [| | | | | |ci]; try discriminate. simpl in Hcontact.
  apply andb_prop in Hcontact as [Hcontact Haddress].
  apply andb_prop in Hcontact as [Hname Hphone].
  apply andb_prop in Henv as [Hflush Hcommit].
  apply negb_true_iff in Hflush, Hcommit.
  destruct (normalize_address_field ci Haddress) as (a & Hnorm & Hbind).
  unfold place_order, place_order_data.
  rewrite (py_contains_key _ _ _ Hcart). cbn [mbind option_bind].
  rewrite (py_contains_key _ _ _ Hci). cbn [mbind option_bind andb negb].
  rewrite Hamount. cbn [mbind option_bind].
  assert (py_get (JObj kvs) (py "contactInfo") (JObj []) = Some (JObj ci)) as ->.
  { simpl. by rewrite Hci. }
  cbn [mbind option_bind].
  rewrite (py_get_text_field _ _ _ Hname), (py_get_text_field _ _ _ Hphone).
  cbn [mbind option_bind].
  assert (py_get (JObj ci) (py "address") JNull
          = Some (default JNull (dict_lookup (py "address") ci))) as -> by done.
  cbn [mbind option_bind].
  rewrite (py_get_text_field _ _ _ Hpickup). cbn [mbind option_bind].
  rewrite Hnorm. cbn [mbind option_bind].
  unfold flush_contact. rewrite Hflush.
  cbn [bind_required mbind option_bind]. rewrite !sql_text_str, Hbind.
  cbn [mbind option_bind].
  assert (py_getitem (JObj kvs) (py "cartItems") = Some cart) as -> by done.
  cbn [mbind option_bind].
  rewrite Hcommit, new_order_id_free. cbn [orb negb default].
  unfold spec_contact, contact_info_of.
  cbn [py_getitem Order.order_id Order.final_amount ContactInfo.id].
  rewrite Hci, new_order_id_spec. done.
Qed.

Lemma keys_are_bad_items (kvs : list (pystr * json)) :
  kvs ≠ [] →
  Exists (λ item, bad_item item = true) ((λ kv, JStr kv.1) <$> kvs).
Proof. destruct kvs; [done|]. intros _. by left. Qed.

Lemma characters_are_bad_items (s : pystr) :
  s ≠ [] →
  Exists (λ item, bad_item item = true) ((λ c, JStr [c]) <$> s).
Proof. destruct s; [done|]. intros _. by left. Qed.

(** X9: cartItems need not be a list.  An empty mapping or an empty string
    is taken as an empty cart: the order is stored with the delivery fee as
    its amount and the value as given as its items.  Every other value
    that is not a list (null, a number, a boolean, a non-empty mapping or
    string) makes the handler raise: 500, nothing stored. *)
Theorem cart_that_is_not_a_list db env data cart :
  has_both_keys data = true →
  py_getitem data (py "cartItems") = Some cart →
  (unusable_cart cart = true →
   place_order db env (Json data) = (Unhandled, db))
  ∧ (cart = JObj [] ∨ cart = JStr [] →
     well_formed_contact_part data = true →
     healthy env = true →
     ∃ r c o,
       place_order db env (Json data)
       = (Reply 201 r, Database (contacts db ++ [c]) (orders db ++ [o]))
       ∧ Order.final_amount o = NInt (spec_delivery_fee data)
       ∧ Order.items_json o = json_dumps cart).
Proof.
  intros Hkeys Hcart. split.
  - intros Hbad. apply place_order_without_amount; [done|].
    unfold compute_final_amount. rewrite Hcart. cbn [mbind option_bind].
    destruct cart as [| | | |s| |kvs]; try done; simpl in Hbad;
      apply negb_true_iff, bool_decide_eq_false in Hbad; cbn [py_iter mbind option_bind].
    + by rewrite (sum_cart_bad_item _ _ (characters_are_bad_items s Hbad)).
    + by rewrite (sum_cart_bad_item _ _ (keys_are_bad_items kvs Hbad)).
  - intros Hempty Hwf Henv.
    destruct (has_both_keys_inv _ Hkeys) as (kvs & cart' & ci & -> & Hc & _).
    simpl in Hcart. rewrite Hc in Hcart. injection Hcart as ->.
    assert (compute_final_amount (JObj kvs)
            = Some (NInt (spec_delivery_fee (JObj kvs)))) as Hamount.
    { unfold compute_final_amount, spec_delivery_fee. simpl. rewrite Hc.
      destruct Hempty as [-> | ->]; simpl;
        by destruct (dict_lookup (py "pickupType") kvs) as [[]|]. }
    rewrite (place_order_with_amount _ _ _ _ _ Hc Hwf Henv Hamount).
    eexists _, _, _. split; [done|].
    cbn [Order.final_amount Order.items_json]. by rewrite float_column_fee.
Qed.

Lemma place_order_contact_raises db env kvs cart ci :
  dict_lookup (py "cartItems") kvs = Some cart →
  dict_lookup (py "contactInfo") kvs = Some (JObj ci) →
  bind_required (default (JStr (py "N/A")) (dict_lookup (py "name") ci)) = None
  ∨ bind_required (default (JStr (py "N/A")) (dict_lookup (py "phone") ci)) = None
  ∨ bind_required (default (JStr (py "pickup")) (dict_lookup (py "pickupType") kvs))
    = None
  ∨ normalize_address (default JNull (dict_lookup (py "address") ci)) = None →
  place_order db env (Json (JObj kvs)) = (Unhandled, db).
Proof.
  intros Hcart Hci Hfail.
  unfold place_order, place_order_data.
  rewrite (py_contains_key _ _ _ Hcart). cbn [mbind option_bind].
  rewrite (py_contains_key _ _ _ Hci). cbn [mbind option_bind andb negb].
  destruct (compute_final_amount (JObj kvs)); [|done].
  cbn [mbind option_bind py_get]. rewrite Hci.
  cbn [default from_option id mbind option_bind py_get].
  destruct (normalize_address _) as [a|] eqn:Hnorm; [|done].
  cbn [mbind option_bind].
  unfold flush_contact. destruct (flush_fails env); [done|].
  destruct Hfail as [Hname | [Hphone | [Hpickup | Haddress]]].
  - by rewrite Hname.
  - destruct (bind_required (default _ (dict_lookup (py "name") ci)));
      [|reflexivity].
    cbn [mbind option_bind]. by rewrite Hphone.
  - destruct (bind_required (default _ (dict_lookup (py "name") ci)));
      [|reflexivity].
    cbn [mbind option_bind].
    destruct (bind_required (default _ (dict_lookup (py "phone") ci)));
      [|reflexivity].
    cbn [mbind option_bind].
    destruct (bind_nullable a); [|reflexivity]. cbn [mbind option_bind].
    by rewrite Hpickup.
  - congruence.
Qed.

(** X10: a default replaces a missing field only.  A name, a phone or a
    pickupType that is present and null is not replaced by "N/A" or
    "pickup": the contact row is refused by the NOT NULL column, the
    handler raises (500, not 400) and nothing is stored. *)
Theorem null_contact_field_is_unhandled db env data ci :
  has_both_keys data = true →
  py_getitem data (py "contactInfo") = Some (JObj ci) →
  dict_lookup (py "name") ci = Some JNull
  ∨ dict_lookup (py "phone") ci = Some JNull
  ∨ py_getitem data (py "pickupType") = Some JNull →
  place_order db env (Json data) = (Unhandled, db).
Proof.
  intros (kvs & cart & ci' & -> & Hcart & Hci')%has_both_keys_inv Hci Hnull.
  simpl in Hci, Hnull. rewrite Hci' in Hci. injection Hci as ->.
  apply (place_order_contact_raises _ _ _ _ _ Hcart Hci').
  destruct Hnull as [-> | [-> | ->]]; auto.
Qed.

(** X11: an address that is neither a string nor empty is not normalized
    but makes the handler raise: a non-zero number, true, a non-empty list
    or mapping has no strip method, so the answer is 500 and nothing is
    stored. *)
Theorem truthy_non_string_address_is_unhandled db env data ci address :
  has_both_keys data = true →
  py_getitem data (py "contactInfo") = Some (JObj ci) →
  dict_lookup (py "address") ci = Some address →
  is_text address = false →
  py_truthy address = true →
  place_order db env (Json data) = (Unhandled, db).
Proof.
  intros (kvs & cart & ci' & -> & Hcart & Hci')%has_both_keys_inv Hci Haddress
    Htext Htruthy.
  simpl in Hci. rewrite Hci' in Hci. injection Hci as ->.
  apply (place_order_contact_raises _ _ _ _ _ Hcart Hci'). do 3 right.
  rewrite Haddress. unfold normalize_address. cbn [default from_option id].
  rewrite Htruthy. by destruct address.
Qed.

(** X12: the fee charged and the pickup type stored agree.  For a
    well-formed payload the amount of the new order is what the Float
    column holds of the subtotal plus 50 exactly when the new contact row
    says "delivery", of the plain subtotal otherwise: the nearest double,
    which is the sum itself up to 2^53.  A payload without pickupType is
    stored as "pickup". *)
Theorem fee_agrees_with_stored_pickup_type db env data :
  well_formed_payload data = true →
  healthy env = true →
  ∃ r c o charged,
    place_order db env (Json data)
    = (Reply 201 r, Database (contacts db ++ [c]) (orders db ++ [o]))
    ∧ charged
      = spec_subtotal (cart_of data)
        + (if bool_decide (ContactInfo.pickup_type c = py "delivery")
           then 50 else 0)
    ∧ Order.final_amount o = float_column (NInt charged)
    ∧ (- 2 ^ 53 ≤ charged ≤ 2 ^ 53 → Order.final_amount o = NInt charged)
    ∧ (py_getitem data (py "pickupType") = None →
       ContactInfo.pickup_type c = py "pickup").
Proof.
  intros Hwf Henv. rewrite (place_order_well_formed _ _ _ Hwf Henv).
  eexists _, _, _, _. split; [done|]. split; [done|].
  assert (spec_final_amount data (cart_of data)
          = spec_subtotal (cart_of data)
            + (if bool_decide (ContactInfo.pickup_type (spec_contact db data)
                               = py "delivery") then 50 else 0)) as Hcharged.
  { unfold spec_contact, spec_final_amount, spec_delivery_fee, text_or.
    cbn [ContactInfo.pickup_type].
    destruct data as [| | | | | |kvs]; try discriminate. simpl in Hwf.
    destruct (dict_lookup (py "cartItems") kvs) as [[| | | | |items|]|];
      try discriminate.
    destruct (dict_lookup (py "contactInfo") kvs); try discriminate.
    apply andb_prop in Hwf as [_ Hpickup]. unfold text_field in Hpickup.
    destruct (py_getitem (JObj kvs) (py "pickupType")) as [[]|] eqn:Hp;
      simpl in Hp; rewrite Hp in Hpickup; try discriminate; [done|].
    by do 2 f_equal. }
  unfold spec_order at 1 2. cbn [Order.final_amount]. rewrite Hcharged.
  split; [done|]. split; [apply float_column_exact|].
  unfold spec_contact, text_or. cbn [ContactInfo.pickup_type]. by intros ->.
Qed.

Lemma mapM_raises {A B} (f : A → option B) l :
  Exists (λ x, f x = None) l → mapM f l = None.
Proof.
  intros Hbad. destruct (mapM f l) as [k|] eqn:Hmap; [|done].
  assert (is_Some (mapM f l)) as Hsome by by rewrite Hmap.
  apply mapM_is_Some_1 in Hsome. rewrite Forall_forall in Hsome.
  apply Exists_exists in Hbad as (x & Hx & Hnone).
  destruct (Hsome x Hx) as [y Hy]. simpl in Hy. congruence.
Qed.

(** X13: the except clauses cover more than a blob that does not parse.
    A stored items blob that parses to something that cannot be iterated,
    or whose elements are not all mappings, shows the marker in both
    listings; an item whose options is not a string shows the marker in the
    full listing only, since the query by phone does not read options. *)
Theorem unusable_items_show_the_marker blob value :
  json_loads blob = Some value →
  (py_iter value = None →
   all_orders_content blob = unparseable ∧ query_content blob = unparseable)
  ∧ (∀ items,
       py_iter value = Some items →
       Exists (λ item, is_mapping item = false) items →
       all_orders_content blob = unparseable
       ∧ query_content blob = unparseable)
  ∧ (∀ items,
       py_iter value = Some items →
       Exists (λ item, ∃ kvs options,
                 item = JObj kvs
                 ∧ dict_lookup (py "options") kvs = Some options
                 ∧ is_text options = false) items →
       all_orders_content blob = unparseable)
  ∧ (∀ kvs options,
       value = JArr [JObj kvs] →
       dict_lookup (py "options") kvs = Some options →
       is_text options = false →
       all_orders_content blob = unparseable
       ∧ query_content blob
         = py_str (default (JStr (py "飲品")) (dict_lookup (py "name") kvs))
           ++ py " x "
           ++ py_str (default (JInt 1) (dict_lookup (py "quantity") kvs))).
Proof.
  intros Hloads. unfold all_orders_content, query_content. rewrite Hloads.
  cbn [mbind option_bind].
  assert (∀ items, Exists (λ item, ∃ kvs options,
                     item = JObj kvs
                     ∧ dict_lookup (py "options") kvs = Some options
                     ∧ is_text options = false) items →
                   mapM all_orders_line items = None) as Hoptions.
  { intros items Hbad. apply mapM_raises. eapply Exists_impl; [exact Hbad|].
    intros item (kvs & options & -> & Hopt & Htext).
    unfold all_orders_line. simpl. rewrite Hopt. by destruct options. }
  split; [|split; [|split]].
  - by intros ->.
  - intros items -> Hbad. cbn [mbind option_bind].
    rewrite !mapM_raises; [done| |].
    + eapply Exists_impl; [exact Hbad|]. by intros [].
    + eapply Exists_impl; [exact Hbad|]. by intros [].
  - intros items -> Hbad. cbn [mbind option_bind]. by rewrite Hoptions.
  - intros kvs options -> Hopt Htext. cbn [py_iter mbind option_bind]. split.
    + rewrite Hoptions; [done|]. left. eauto.
    + rewrite mapM_one. unfold query_line. done.
Qed.

Lemma str_startswith_occurs sub s :
  str_startswith sub s = true ↔ occurs_at sub s 0.
Proof.
  unfold occurs_at. rewrite drop_0. revert s.
  induction sub as [|a sub IH]; intros s; simpl.
  - split; [by exists s|done].
  - destruct s as [|b s]; simpl.
    + split; [done|]. by intros [rest ?].
    + rewrite andb_true_iff, Z.eqb_eq, IH. split.
      * intros [-> [rest ->]]. by exists rest.
      * intros [rest [= -> ->]]. split; [done|]. by exists rest.
Qed.

(** X14: what the listing shows of an item's options is the text before
    the first " / ".  For every separator and string, [str_split_first] is
    a prefix that no occurrence of the separator starts in; it is followed
    by the separator when the string has an occurrence at all, and is the
    whole string otherwise. *)
Theorem str_split_first_is_before_first_separator sep s :
  let head := str_split_first sep s in
  (∀ i, (i < length head)%nat → ¬ occurs_at sep s i)
  ∧ ((∃ rest, s = head ++ sep ++ rest)
     ∨ (head = s ∧ ∀ i, (i < length s)%nat → ¬ occurs_at sep s i)).
Proof.
  induction s as [|c s [IHnone IHsplit]]; cbn zeta in *.
  - split; [simpl; lia|]. right. split; [done|]. simpl. lia.
  - cbn [str_split_first].
    destruct (str_startswith sep (c :: s)) eqn:Hstart.
    + split; [simpl; lia|]. left.
      apply str_startswith_occurs in Hstart as [rest Hrest].
      rewrite drop_0 in Hrest. by exists rest.
    + assert (¬ occurs_at sep (c :: s) 0) as Hzero.
      { intros H%str_startswith_occurs. congruence. }
      assert (∀ i, occurs_at sep (c :: s) (S i) ↔ occurs_at sep s i) as Hshift
        by done.
      split.
      * intros [|i] Hi; [done|]. rewrite Hshift. apply IHnone. simpl in Hi. lia.
      * destruct IHsplit as [[rest Hrest]|[Hwhole Hnone]].
        -- left. exists rest. simpl. by rewrite <- Hrest.
        -- right. split; [by rewrite Hwhole|].
           intros [|i] Hi; [done|]. rewrite Hshift. apply Hnone. simpl in Hi. lia.
Qed.

Lemma str_contains_occurs sub s :
  str_contains sub s = true ↔ ∃ i, occurs_at sub s i.
Proof.
  induction s as [|c s IH]; cbn [str_contains].
  - rewrite orb_false_r, str_startswith_occurs. split; [by exists 0%nat|].
    intros [i [rest Hrest]]. exists rest. by rewrite drop_nil in Hrest |- *.
  - rewrite orb_true_iff, str_startswith_occurs, IH. split.
    + intros [H|[i H]]; [by exists 0%nat|by exists (S i)].
    + intros [[|i] H]; [by left|right; by exists i].
Qed.

(** X15: a JSON payload that is a string or a list gets past or fails the
    membership test of line 85 by content.  A string is rejected with 400
    unless both key names occur in it as substrings, a list unless both
    names are among its elements; when they do, the lookup that follows
    raises and the answer is 500.  Nothing is stored either way. *)
Theorem string_and_list_payloads db env :
  (∀ s,
     ((∃ i, occurs_at (py "cartItems") s i)
      ∧ (∃ i, occurs_at (py "contactInfo") s i) →
      place_order db env (Json (JStr s)) = (Unhandled, db))
     ∧ (¬ ((∃ i, occurs_at (py "cartItems") s i)
           ∧ (∃ i, occurs_at (py "contactInfo") s i)) →
        place_order db env (Json (JStr s))
        = (Message 400 (py "Invalid order data structure"), db)))
  ∧ (∀ l,
       (JStr (py "cartItems") ∈ l ∧ JStr (py "contactInfo") ∈ l →
        place_order db env (Json (JArr l)) = (Unhandled, db))
       ∧ (¬ (JStr (py "cartItems") ∈ l ∧ JStr (py "contactInfo") ∈ l) →
          place_order db env (Json (JArr l))
          = (Message 400 (py "Invalid order data structure"), db))).
Proof.
  assert (∀ k l, existsb (λ x, py_eq_str x k) l = true ↔ JStr k ∈ l) as Hmem.
  { intros k l. rewrite existsb_exists. split.
    - intros (x & Hx & Heq). destruct x; try done. simpl in Heq.
      apply bool_decide_eq_true in Heq as ->. by apply list_elem_of_In.
    - intros Hk. exists (JStr k). split; [by apply list_elem_of_In|].
      simpl. by apply bool_decide_eq_true. }
  split.
  - intros s. rewrite <- !str_contains_occurs.
    unfold place_order, place_order_data. cbn [py_contains mbind option_bind].
    destruct (str_contains (py "cartItems") s);
      [destruct (str_contains (py "contactInfo") s)|];
      (split; [intros [? ?]; try discriminate; reflexivity
              |intros H; try reflexivity; by destruct H]).
  - intros l. rewrite <- !Hmem.
    unfold place_order, place_order_data. cbn [py_contains mbind option_bind].
    destruct (existsb (λ x, py_eq_str x (py "cartItems")) l);
      [destruct (existsb (λ x, py_eq_str x (py "contactInfo")) l)|];
      (split; [intros [? ?]; try discriminate; reflexivity
              |intros H; try reflexivity; by destruct H]).
Qed.

Lemma place_orders_appends db requests :
  ∃ new_contacts new_orders,
    (place_orders db requests).2
    = Database (contacts db ++ new_contacts) (orders db ++ new_orders)
    ∧ Order.order_id <$> new_orders
      = order_numbers (place_orders db requests).1
    ∧ Order.contact_id <$> new_orders = ContactInfo.id <$> new_contacts.
Proof.
  revert db. induction requests as [|[env body] rest IH]; intros db.
  - exists [], []. destruct db. by rewrite !app_nil_r.
  - cbn [place_orders].
    destruct (place_order db env body) as [out db1] eqn:Hplace.
    destruct (IH db1) as (cs & os & Hdb & Hnum & Hlink).
    destruct (place_orders db1 rest) as [outs db2]. cbn [fst snd] in *.
    destruct (place_order_outcomes db env body)
      as [(r & c & o & H & _ & _ & _ & Hc & _ & _ & Hr & _)|(H & Hnot & _)];
      rewrite Hplace in H.
    + injection H as -> ->. cbn [contacts orders] in Hdb.
      exists (c :: cs), (o :: os). rewrite Hdb, <- !app_assoc. split; [done|].
      unfold order_numbers in *. cbn. by rewrite Hnum, Hlink, Hr, Hc.
    + cbn [snd] in H. subst db1. exists cs, os. split; [done|]. split; [|done].
      rewrite Hnum. unfold order_numbers. rewrite Hplace in Hnot. cbn [fst] in Hnot.
      destruct out; try done. by destruct (Hnot status body0).
Qed.

(** X16: rows are only ever appended, one pair per success.  After any
    sequence of placements the store is the old one followed by new
    contact and order rows; the new orders carry exactly the numbers that
    were replied, in the order of the replies, and each refers to the
    contact row in the same position. *)
Theorem placements_only_append db requests :
  ∃ new_contacts new_orders,
    (place_orders db requests).2
    = Database (contacts db ++ new_contacts) (orders db ++ new_orders)
    ∧ Order.order_id <$> new_orders
      = order_numbers (place_orders db requests).1
    ∧ Order.contact_id <$> new_orders = ContactInfo.id <$> new_contacts
    ∧ length new_contacts = length new_orders.
Proof.
  destruct (place_orders_appends db requests) as (cs & os & Hdb & Hnum & Hlink).
  exists cs, os. repeat split; try done.
  apply (f_equal length) in Hlink. by rewrite !length_fmap in Hlink.
Qed.
End store_properties.

(** ** The properties on sample requests and stores *)

Import Demo.


Lemma order_numbers_are_sequential_witness :
  orders empty_db = []
  ∧ order_numbers (place_orders empty_db three_requests).1 = [1001; 1002; 1003].
Proof.
  split; [reflexivity|].
  exact (proj1 (order_numbers_are_sequential (rt:=runtime) empty_db three_requests eq_refl)).
Defined.

Lemma empty_cart_is_accepted_witness :
  well_formed_payload (checkout [] "delivery") = true
  ∧ py_getitem (checkout [] "delivery") (py "cartItems") = Some (JArr [])
  ∧ healthy (calm 10) = true
  ∧ ∃ r o c,
      place_order two_orders (calm 10) (Json (checkout [] "delivery"))
      = (Reply 201 r,
         Database (contacts two_orders ++ [c]) (orders two_orders ++ [o]))
      ∧ Order.final_amount o = NInt 50.
Proof.
  do 3 (split; [reflexivity|]).
  destruct (empty_cart_is_accepted (rt:=runtime) two_orders (calm 10)
              (checkout [] "delivery") eq_refl eq_refl eq_refl)
    as (r & o & c & Hplace & _ & _ & Hdelivery & _).
  exists r, o, c. split; [exact Hplace|]. apply Hdelivery. reflexivity.
Defined.

Lemma clear_all_orders_resets_numbering_witness :
  commit_fails (calm 40) = false
  ∧ ∃ report,
      clear_all_orders two_orders (calm 40) = (Reply 200 report, Database [] [])
      ∧ deleted_count report = 0
      ∧ ∃ r db',
          place_order (clear_all_orders two_orders (calm 40)).2 (calm 50)
            (Json (checkout [milk_tea] "pickup")) = (Reply 201 r, db')
          ∧ receipt_order_id r = 1001.
Proof.
  split; [reflexivity|].
  destruct (clear_all_orders_resets_numbering (rt:=runtime) two_orders (calm 40) eq_refl)
    as (report & Hclear & Hcount & _ & Hnext).
  exists report. split; [exact Hclear|]. split; [exact Hcount|].
  apply Hnext; reflexivity.
Defined.

Lemma address_is_normalized_witness :
  (∃ r db',
     place_order empty_db (calm 10)
       (Json (checkout_for bob [milk_tea] "delivery")) = (Reply 201 r, db')
     ∧ ∃ c, contacts db' = [c]
            ∧ ContactInfo.delivery_address c = Some (py "5 Tea Road"))
  ∧ (∃ r db',
       place_order empty_db (calm 10)
         (Json (checkout_for amy [milk_tea] "delivery")) = (Reply 201 r, db')
       ∧ ∃ c, contacts db' = [c] ∧ ContactInfo.delivery_address c = None).
Proof.
  split.
  - eexists _, _. split; [reflexivity|].
    edestruct (address_is_normalized (rt:=runtime) empty_db (calm 10)
                 (checkout_for bob [milk_tea] "delivery"))
      as (c & Hc & _ & Haddress); [reflexivity|].
    exists c. split; [exact Hc|].
    destruct (Haddress (py "  5 Tea Road ") eq_refl) as (_ & _ & Hkept).
    apply Hkept. discriminate.
  - eexists _, _. split; [reflexivity|].
    edestruct (address_is_normalized (rt:=runtime) empty_db (calm 10)
                 (checkout_for amy [milk_tea] "delivery"))
      as (c & Hc & _ & Haddress); [reflexivity|].
    exists c. split; [exact Hc|].
    destruct (Haddress (py "   ") eq_refl) as (Hblank & _ & _).
    apply Hblank. repeat constructor.
Defined.


Lemma query_matches_exact_phone_witness :
  valid_suffix (Some (py "123")) = true
  ∧ (∃ results,
       query_order_by_phone legacy_db (Some (py "123")) = Reply 200 results
       ∧ result_order_id <$> results = [1001])
  ∧ valid_suffix (Some (py "456")) = true
  ∧ NotFound (query_order_by_phone legacy_db (Some (py "456"))).
Proof.
  split; [reflexivity|]. split; [|split; [reflexivity|]].
  - destruct (query_matches_exact_phone (rt:=runtime) legacy_db (py "123") eq_refl)
      as (_ & _ & Hsome).
    destruct Hsome as (found & results & Hquery & _); [discriminate|].
    exists results. split; [exact Hquery|].
    vm_compute in Hquery. injection Hquery as <-. reflexivity.
  - destruct (query_matches_exact_phone (rt:=runtime) legacy_db (py "456") eq_refl)
      as (_ & Hnone & _).
    apply Hnone. reflexivity.
Defined.

Lemma phone_suffix_validation_witness :
  InvalidRequest (query_order_by_phone legacy_db (Some (py "12a")))
  ∧ ¬ InvalidRequest (query_order_by_phone legacy_db (Some (py "123")))
  ∧ InvalidRequest (query_order_by_phone legacy_db None).
Proof.
  destruct (phone_suffix_validation (rt:=runtime) legacy_db None)
    as (Hiff & _ & _ & _ & _ & H12a & _ & H123).
  split; [exact H12a|]. split; [exact H123|].
  apply Hiff. intros (a & b & c & Hnone & _). discriminate.
Defined.

Lemma get_all_orders_survives_bad_items_witness :
  (∀ o, o ∈ orders legacy_db → is_Some (contact_of legacy_db o))
  ∧ ∃ summaries,
      get_all_orders legacy_db = Reply 200 summaries
      ∧ summary_order_id <$> summaries = [2; 1]
      ∧ summary_content <$> summaries = [unparseable; py "Milk Tea () x 1"].
Proof.
  assert (∀ o, o ∈ orders legacy_db → is_Some (contact_of legacy_db o)) as Hfk.
  { intros o Ho. unfold legacy_db in Ho. cbn [orders] in Ho.
    rewrite !elem_of_cons, elem_of_nil in Ho.
    destruct Ho as [->|[->|[]]]; vm_compute; eauto. }
  split; [exact Hfk|].
  destruct (get_all_orders_survives_bad_items (rt:=runtime) legacy_db Hfk)
    as (listed & summaries & Hlist & _).
  exists summaries. split; [exact Hlist|].
  vm_compute in Hlist. injection Hlist as <-. split; reflexivity.
Defined.

Lemma missing_quantity_displays_as_one_witness :
  query_line nameless = Some (py "飲品 x 1")
  ∧ all_orders_line nameless = Some (py "未知飲品 (large) x 1")
  ∧ sum_cart (NInt 7) [nameless] = Some (NInt 7).
Proof.
  destruct (missing_quantity_displays_as_one (rt:=runtime)
              [(py "price", JInt 40); (py "options", JStr (py "large / no ice"))])
    as [Hquantity _].
  destruct (Hquantity eq_refl) as (Hquery & Hall & _ & Hsum).
  split; [exact Hquery|]. split.
  - exact (Hall (py "large / no ice") eq_refl).
  - exact (Hsum eq_refl 7 []).
Defined.

Example scalar_payload_is_not_rejected :
  place_order two_orders (calm 10) (Json (JInt 5)) = (Unhandled, two_orders)
  ∧ place_order two_orders (calm 10) (Json (JObj [(py "cartItems", JArr [])]))
    = (Message 400 (py "Invalid order data structure"), two_orders).
Proof. split; reflexivity. Qed.

Example round_trip_amounts :
  (place_order empty_db (calm 10) (Json (checkout [item_a] "pickup"))).1
  = Reply 201
      (Receipt (py "Order placed successfully!") 1001 (NInt 120)
         (py "Time calculation removed for simplicity, or use calculated time here"))
  ∧ (place_order empty_db (calm 10) (Json (checkout [item_a] "delivery"))).1
    = Reply 201
        (Receipt (py "Order placed successfully!") 1001 (NInt 170)
           (py "Time calculation removed for simplicity, or use calculated time here")).
Proof. split; reflexivity. Qed.

Example milk_tea_scenario :
  let placed := place_order empty_db (calm 10) (Json (checkout [milk_tea] "pickup")) in
  status_code placed.1 = 201
  ∧ (∃ r, query_order_by_phone placed.2 (Some (py "123")) = Reply 200 [r]
          ∧ result_content r = py "Milk Tea x 1"
          ∧ result_final_amount r = NInt 60
          ∧ result_address r = None).
Proof. split; [reflexivity|]. eexists. repeat split; reflexivity. Qed.

Example clear_then_list :
  orders two_orders ≠ []
  ∧ get_all_orders (clear_all_orders two_orders (calm 40)).2 = Reply 200 [].
Proof. split; [discriminate|reflexivity]. Qed.

Example interleaved_failures_skip_no_number :
  order_numbers (place_orders empty_db five_requests).1 = [1001; 1002; 1003]
  ∧ length (orders (place_orders empty_db five_requests).2) = 3%nat.
Proof. split; reflexivity. Qed.

Example full_number_is_not_matched :
  ContactInfo.contact_phone <$> matching_contacts legacy_db (py "123")
  = [py "123"]
  ∧ str_contains (py "123") (py "0912345123") = true.
Proof. split; reflexivity. Qed.

(** ** The further properties on sample requests and stores *)

Import Samples.

Lemma legacy_db_consistent : consistent legacy_db.
Proof.
  split.
  - apply (bool_decide_unpack _). vm_compute. exact I.
  - apply (bool_decide_unpack _). vm_compute. exact I.
  - apply (bool_decide_unpack _). vm_compute. exact I.
  - apply Forall_forall. apply (bool_decide_unpack _). vm_compute. exact I.
Qed.

Lemma handlers_keep_consistency_witness :
  consistent legacy_db
  ∧ consistent
      (serve legacy_db
         (PlaceOrder (calm 30) (Json (checkout [milk_tea] "pickup")))).
Proof.
  split; [exact legacy_db_consistent|].
  exact (handlers_keep_consistency (rt:=runtime) legacy_db _ legacy_db_consistent).
Defined.

Lemma newest_order_is_listed_first_witness :
  consistent legacy_db
  ∧ Forall (λ i, i < 2 ^ 63 - 1) (Order.id <$> orders legacy_db)
  ∧ Forall (λ i, i < 2 ^ 63 - 1) (ContactInfo.id <$> contacts legacy_db)
  ∧ ∃ r db' newest older,
      place_order legacy_db (calm 30) (Json (checkout [milk_tea] "pickup"))
      = (Reply 201 r, db')
      ∧ get_all_orders db' = Reply 200 (newest :: older)
      ∧ summary_order_id newest = 3
      ∧ length older = 2%nat.
Proof.
  split; [exact legacy_db_consistent|].
  do 2 (split; [repeat constructor|]).
  eexists _, _.
  edestruct (newest_order_is_listed_first (rt:=runtime) legacy_db (calm 30)
               (Json (checkout [milk_tea] "pickup")))
    as (newest & older & Hlist & Hid & _ & _ & _ & Hlen);
    [exact legacy_db_consistent
    |repeat constructor|repeat constructor|reflexivity|].
  exists newest, older. split; [reflexivity|]. split; [exact Hlist|].
  split; [exact Hid|exact Hlen].
Defined.

Lemma placed_order_is_found_by_phone_witness :
  well_formed_payload (checkout [milk_tea] "pickup") = true
  ∧ healthy (calm 30) = true
  ∧ valid_suffix (Some (py "123")) = true
  ∧ ∃ r db' results entry,
      place_order legacy_db (calm 30) (Json (checkout [milk_tea] "pickup"))
      = (Reply 201 r, db')
      ∧ query_order_by_phone db' (Some (py "123")) = Reply 200 results
      ∧ entry ∈ results
      ∧ result_order_id entry = 1003
      ∧ result_content entry = py "Milk Tea x 1".
Proof.
  do 3 (split; [reflexivity|]).
  destruct (placed_order_is_found_by_phone (rt:=runtime) legacy_db (calm 30)
              (checkout [milk_tea] "pickup") (py "123")
              eq_refl eq_refl eq_refl eq_refl)
    as (r & db' & results & entry & Hplace & Hquery & Hin & Hnumber & _ & _ & _
        & Hcontent).
  exists r, db', results, entry. split; [exact Hplace|]. split; [exact Hquery|].
  split; [exact Hin|]. split.
  - rewrite Hnumber. vm_compute in Hplace. by injection Hplace as <- _.
  - exact (Hcontent eq_refl [py "Milk Tea x 1"] eq_refl).
Defined.

Lemma cleared_store_answers_nothing_witness :
  commit_fails (calm 40) = false
  ∧ get_all_orders (clear_all_orders legacy_db (calm 40)).2 = Reply 200 []
  ∧ NotFound (query_order_by_phone (clear_all_orders legacy_db (calm 40)).2
                (Some (py "123"))).
Proof.
  split; [reflexivity|].
  destruct (cleared_store_answers_nothing (rt:=runtime) legacy_db (calm 40)
              eq_refl) as [Hlist Hquery].
  split; [exact Hlist|]. exact (Hquery (py "123") eq_refl).
Defined.

Lemma bad_cart_item_is_unhandled_witness :
  has_both_keys (with_cart (JArr [milk_tea; string_price])) = true
  ∧ Exists (λ item, bad_item item = true) [milk_tea; string_price]
  ∧ place_order legacy_db (calm 30)
      (Json (with_cart (JArr [milk_tea; string_price])))
    = (Unhandled, legacy_db).
Proof.
  assert (Exists (λ item, bad_item item = true) [milk_tea; string_price])
    as Hbad by (right; left; reflexivity).
  split; [reflexivity|]. split; [exact Hbad|].
  exact (bad_cart_item_is_unhandled (rt:=runtime) legacy_db (calm 30)
           (with_cart (JArr [milk_tea; string_price])) _ eq_refl eq_refl Hbad).
Defined.

Lemma cart_that_is_not_a_list_witness :
  has_both_keys (with_cart (JObj [])) = true
  ∧ (∃ r c o,
       place_order legacy_db (calm 30) (Json (with_cart (JObj [])))
       = (Reply 201 r,
          Database (contacts legacy_db ++ [c]) (orders legacy_db ++ [o]))
       ∧ Order.final_amount o = NInt 50
       ∧ Order.items_json o = py "{}")
  ∧ has_both_keys (with_cart (JInt 3)) = true
  ∧ place_order legacy_db (calm 30) (Json (with_cart (JInt 3)))
    = (Unhandled, legacy_db).
Proof.
  split; [reflexivity|]. split; [|split; [reflexivity|]].
  - destruct (cart_that_is_not_a_list (rt:=runtime) legacy_db (calm 30)
                (with_cart (JObj [])) (JObj []) eq_refl eq_refl) as [_ Hempty].
    exact (Hempty (or_introl eq_refl) eq_refl eq_refl).
  - destruct (cart_that_is_not_a_list (rt:=runtime) legacy_db (calm 30)
                (with_cart (JInt 3)) (JInt 3) eq_refl eq_refl) as [Hbad _].
    exact (Hbad eq_refl).
Defined.

Lemma null_contact_field_is_unhandled_witness :
  has_both_keys (checkout_for nobody [milk_tea] "pickup") = true
  ∧ place_order legacy_db (calm 30)
      (Json (checkout_for nobody [milk_tea] "pickup"))
    = (Unhandled, legacy_db).
Proof.
  split; [reflexivity|].
  apply (null_contact_field_is_unhandled (rt:=runtime) legacy_db (calm 30) _
           [(py "name", JNull); (py "phone", JStr (py "123"))]);
    [reflexivity|reflexivity|left; reflexivity].
Defined.

Lemma truthy_non_string_address_is_unhandled_witness :
  has_both_keys (checkout_for numbered_house [milk_tea] "delivery") = true
  ∧ place_order legacy_db (calm 30)
      (Json (checkout_for numbered_house [milk_tea] "delivery"))
    = (Unhandled, legacy_db).
Proof.
  split; [reflexivity|].
  apply (truthy_non_string_address_is_unhandled (rt:=runtime) legacy_db
           (calm 30) _
           [(py "name", JStr (py "Eve")); (py "phone", JStr (py "777"));
            (py "address", JInt 12)] (JInt 12)); reflexivity.
Defined.

Lemma fee_agrees_with_stored_pickup_type_witness :
  well_formed_payload (checkout_for bob [item_a] "delivery") = true
  ∧ healthy (calm 30) = true
  ∧ ∃ r c o,
      place_order legacy_db (calm 30)
        (Json (checkout_for bob [item_a] "delivery"))
      = (Reply 201 r,
         Database (contacts legacy_db ++ [c]) (orders legacy_db ++ [o]))
      ∧ ContactInfo.pickup_type c = py "delivery"
      ∧ Order.final_amount o = NInt 170.
Proof.
  do 2 (split; [reflexivity|]).
  destruct (fee_agrees_with_stored_pickup_type (rt:=runtime) legacy_db (calm 30)
              (checkout_for bob [item_a] "delivery") eq_refl eq_refl)
    as (r & c & o & charged & Hplace & Hcharged & _ & Hexact & _).
  exists r, c, o. split; [exact Hplace|].
  assert (ContactInfo.pickup_type c = py "delivery") as Hpickup.
  { vm_compute in Hplace. by injection Hplace as _ <- _. }
  split; [exact Hpickup|].
  rewrite Hpickup in Hcharged. vm_compute in Hcharged. subst charged.
  apply Hexact. vm_compute. split; discriminate.
Defined.

Lemma unusable_items_show_the_marker_witness :
  json_loads (py "5") = Some (JInt 5)
  ∧ all_orders_content (py "5") = unparseable
  ∧ query_content (py "5") = unparseable.
Proof.
  split; [reflexivity|].
  destruct (unusable_items_show_the_marker (rt:=runtime) (py "5") (JInt 5)
              eq_refl) as [Hscalar _].
  exact (Hscalar eq_refl).
Defined.

Example busy_day_stays_dense :
  Order.order_id <$> orders (serve_all (Database [] []) busy_day)
  = [1001; 1002; 1003]
  ∧ (∃ summaries,
       get_all_orders (serve_all (Database [] []) busy_day) = Reply 200 summaries
       ∧ summary_order_id <$> summaries = [3; 2; 1]).
Proof. split; [reflexivity|]. eexists. split; reflexivity. Qed.

Example options_before_first_separator :
  str_split_first (py " / ") (py "large / no ice / less sugar") = py "large"
  ∧ str_split_first (py " / ") (py " / large") = []
  ∧ str_split_first (py " / ") (py "large/no ice") = py "large/no ice".
Proof. repeat split; reflexivity. Qed.

Example key_names_inside_a_string :
  place_order legacy_db (calm 30) (Json (JStr (py "cartItems and contactInfo")))
  = (Unhandled, legacy_db)
  ∧ place_order legacy_db (calm 30) (Json (JStr (py "cartItems")))
    = (Message 400 (py "Invalid order data structure"), legacy_db)
  ∧ place_order legacy_db (calm 30) (Json (JArr []))
    = (Message 400 (py "Invalid order data structure"), legacy_db).
Proof. repeat split; reflexivity. Qed.

Example large_amounts_are_rounded :
  compute_final_amount (checkout [costly] "pickup")
  = Some (NInt 9007199254740993)
  ∧ (∃ message number wait db',
       place_order empty_db (calm 10) (Json (checkout [costly] "pickup"))
       = (Reply 201 (Receipt message number (NInt 9007199254740992) wait), db')
       ∧ Order.final_amount <$> orders db' = [NInt 9007199254740992]).
Proof. split; [reflexivity|]. eexists _, _, _, _. split; reflexivity. Qed.

Example rowid_follows_the_largest :
  next_rowid [] = 1 ∧ next_rowid [1; 2; 7] = 8 ∧ next_rowid [-5; -3] = -2.
Proof. repeat split; reflexivity. Qed.
